(** * ant: host-side glue for an ANT+ USB transceiver

    A shallow embedding of [src/ant/monkeypatches.py] (the patched USB
    driver, the device pump and the node) and of [src/ant/ant.py] (session
    setup and teardown, the scanner helpers and the heart-rate record).

    Python objects live in a store and are named by references, so that
    two names of one object see the same fields.  Every function of the
    source is a computation in the monad [M]: it reads the behaviour of the
    outside world (the USB stack, the openant library), threads the store
    and the trace of observable events, and either returns or raises. *)

From stdpp Require Import base strings gmap list pretty.
From Corelib Require Import PrimFloat.

Local Open Scope Z_scope.
Local Open Scope string_scope.
Local Open Scope list_scope.

(** ** Exceptions *)

(** The exception classes the code raises, catches or can be handed by the
    libraries it calls.  [KeyboardInterrupt] and [SystemExit] derive from
    [BaseException] only; every other class derives from [Exception].
    [ForeignError name] is a library-defined subclass of [Exception].
    [ReferenceError] is what the model raises on a reference that names no
    object of the expected class. *)
Inductive exc_class : Type :=
| KeyboardInterrupt
| SystemExit
| Exception
| AssertionError
| AttributeError
| IndexError
| NotImplementedError
| RuntimeError
| ReferenceError
| USBError
| ForeignError (name : string).

(** [type(e).__name__] *)
Definition class_name (c : exc_class) : string :=
  match c with
  | KeyboardInterrupt => "KeyboardInterrupt"
  | SystemExit => "SystemExit"
  | Exception => "Exception"
  | AssertionError => "AssertionError"
  | AttributeError => "AttributeError"
  | IndexError => "IndexError"
  | NotImplementedError => "NotImplementedError"
  | RuntimeError => "RuntimeError"
  | ReferenceError => "ReferenceError"
  | USBError => "USBError"
  | ForeignError name => name
  end.

(** An exception value: its class, [str(e)], and the cause given by
    [raise ... from e]. *)
#[warnings="-register-all"] Inductive exn : Type :=
  Exn { exn_class : exc_class; exn_msg : string; exn_cause : option exn }.

(** [isinstance(e, Exception)]: what [except Exception] catches. *)
Definition is_Exception (e : exn) : bool :=
  match exn_class e with
  | KeyboardInterrupt | SystemExit => false
  | _ => true
  end.

(** [isinstance(e, NotImplementedError)] *)
Definition is_NotImplementedError (e : exn) : bool :=
  match exn_class e with
  | NotImplementedError => true
  | _ => false
  end.

Inductive result (A : Type) : Type :=
| Ok (a : A)
| Raise (e : exn).
Arguments Ok {A} a.
Arguments Raise {A} e.

Definition is_Ok {A} (r : result A) : bool :=
  match r with Ok _ => true | Raise _ => false end.

(** ** USB descriptors (pyusb) *)

Record Endpoint : Type := { bEndpointAddress : Z; bmAttributes : Z }.

(** One alternate setting of one interface, with its endpoints in
    descriptor order. *)
Record Interface : Type :=
  { bInterfaceNumber : Z; bAlternateSetting : Z; endpoints : list Endpoint }.

(** A configuration lists its interfaces, and each interface its alternate
    settings. *)
Record Configuration : Type := { interfaces : list (list Interface) }.

Record Device : Type :=
  { idVendor : Z; idProduct : Z; active_configuration : Configuration }.

(** [usb.util]: the constants and the two masks the driver relies on. *)
Definition ENDPOINT_IN : Z := 0x80.
Definition ENDPOINT_OUT : Z := 0x00.
Definition ENDPOINT_TYPE_BULK : Z := 0x02.
Definition endpoint_direction (address : Z) : Z := Z.land address 0x80.
Definition endpoint_type (attributes : Z) : Z := Z.land attributes 0x03.

(** [usb.util.find_descriptor(desc, custom_match=f)]: the first descriptor
    of [desc] that [f] accepts, [None] when there is none. *)
Definition find_descriptor (desc : list Endpoint) (custom_match : Endpoint → bool)
  : option Endpoint :=
  head (filter (λ e, custom_match e = true) desc).

(** [cfg[(i, a)]]: alternate setting [a] of interface [i], by index;
    pyusb raises [IndexError] where there is none. *)
Definition Configuration_getitem (cfg : Configuration) (index : nat * nat)
  : option Interface :=
  alts ← interfaces cfg !! index.1; alts !! index.2.

(** [USBIdentity] of [src/ant/usb.py] *)
Record USBIdentity : Type := { product : Z; vendor : Z }.

(** ** Objects, events and the outside world *)

Definition ref : Type := nat.

(** A driver handed to the pump or to teardown is an instance of the
    patched [USBDriver] or, Python being duck typed, some other object with
    [open] and [close] methods. *)
Inductive driver_obj : Type :=
| Patched (r : ref)
| Foreign (k : nat).

(** The bound method a thread runs. *)
Inductive worker : Type :=
| Ant_worker (pump : ref)
| Node_worker (node : ref).

Record Thread : Type := { target : worker; name : string }.

(** A callback stored on a scanner. *)
Inductive callback : Type :=
| DefaultOnFound
| DefaultOnUpdate
| UserCallback (k : nat).

Inductive log_level : Type := DEBUG | INFO | SUCCESS | WARNING.

(** What a run does that can be observed from outside, in order. *)
Inductive event : Type :=
| ELog (level : log_level) (msg : string)
| EGetBackend (path : string)
| EUsbFind (usb_id : USBIdentity) (backend : option string)
| EDevSetConfiguration (d : Device)
| EDevReset (d : Device)
| EDevGetActiveConfiguration (d : Device)
| ESleep (seconds : Z)
| EThreadStart (t : Thread)
| EDriverOpen (d : driver_obj)
| EDriverClose (d : driver_obj)
| EAntResetSystem (pump : ref)
| ENodeStop (node : ref)
| ENodeSetNetworkKey (node : ref) (network : Z) (key : list Z)
| EScannerNew (node : ref)
| EScannerCloseChannel (scanner : ref).

(** What [usb.core.find] hands back. *)
Inductive found : Type :=
| FoundNone
| FoundDevice (d : Device)
| FoundGenerator (ds : list Device).

(** The behaviour of everything outside the repository.  A call that can
    fail answers [Some e] when it raises [e]; the answer may depend on all
    the events so far.  Library methods are taken to act on the outside
    world only: what they may assign on the objects of the store (the
    flags [Node.stop] clears, say) is not tracked. *)
Record world : Type := {
  is_windows : bool;
  ANTPLUS_NETWORK_KEY : list Z;
  str_device : Device → string;
  usb_get_backend : list event → string → option exn;
  usb_find : list event → USBIdentity → option string → result found;
  dev_set_configuration : list event → Device → option exn;
  dev_reset : list event → Device → option exn;
  dev_get_active_configuration : list event → Device → option exn;
  foreign_open : list event → nat → option exn;
  foreign_close : list event → nat → option exn;
  ant_reset_system : list event → ref → option exn;
  node_stop : list event → ref → option exn;
  node_set_network_key : list event → ref → Z → list Z → option exn;
  scanner_new : list event → ref → option exn;
  scanner_close_channel : list event → ref → option exn;
}.

(** ** The classes of [monkeypatches.py]: fields *)

Module USBDriver_.
Record t : Type := { dev : Device; _in : option Endpoint; _out : option Endpoint }.
End USBDriver_.

Module AntTransceiverDevice_.
Record t : Type := {
  _driver : driver_obj;
  _message_queue : list (list Z);
  _events : list (list Z);
  _buffer : list Z;
  _burst_data : list Z;
  _last_data : list Z;
  _running : bool;
  _worker_thread : option Thread;
}.
End AntTransceiverDevice_.

Module AntTransceiver_.
Record t : Type := {
  _responses : list (list Z);
  _events : list (list Z);
  _datas : list (list Z);
  serial : option Z;
  ant_version : option string;
  max_networks : Z;
  max_channels : Z;
  channels : list nat;
  standard_options : gset Z;
  advanced_options : gset Z;
  advanced_options_two : gset Z;
  advanced_options_three : gset Z;
  max_sensorcore_channels : Z;
  ant : ref;
  _running : bool;
  _worker_thread : option Thread;
}.
End AntTransceiver_.

(** [openant.devices.scanner.Scanner]: the node it scans on and the two
    callback attributes [setup_scanner] may assign ([None]: the class's own
    method). *)
Module Scanner_.
Record t : Type := {
  node : ref;
  on_found : option callback;
  on_update : option callback;
}.
End Scanner_.

(** ** Store and monad *)

Record state : Type := {
  drivers : gmap ref USBDriver_.t;
  pumps : gmap ref AntTransceiverDevice_.t;
  nodes : gmap ref AntTransceiver_.t;
  scanners : gmap ref Scanner_.t;
  trace : list event;
}.

Definition set_drivers (f : gmap ref USBDriver_.t → gmap ref USBDriver_.t) (st : state) : state :=
  {| drivers := f (drivers st); pumps := pumps st; nodes := nodes st;
     scanners := scanners st; trace := trace st |}.
Definition set_pumps (f : gmap ref AntTransceiverDevice_.t → gmap ref AntTransceiverDevice_.t)
    (st : state) : state :=
  {| drivers := drivers st; pumps := f (pumps st); nodes := nodes st;
     scanners := scanners st; trace := trace st |}.
Definition set_nodes (f : gmap ref AntTransceiver_.t → gmap ref AntTransceiver_.t)
    (st : state) : state :=
  {| drivers := drivers st; pumps := pumps st; nodes := f (nodes st);
     scanners := scanners st; trace := trace st |}.
Definition set_scanners (f : gmap ref Scanner_.t → gmap ref Scanner_.t) (st : state) : state :=
  {| drivers := drivers st; pumps := pumps st; nodes := nodes st;
     scanners := f (scanners st); trace := trace st |}.
Definition set_trace (f : list event → list event) (st : state) : state :=
  {| drivers := drivers st; pumps := pumps st; nodes := nodes st;
     scanners := scanners st; trace := f (trace st) |}.

Definition empty_state : state :=
  {| drivers := ∅; pumps := ∅; nodes := ∅; scanners := ∅; trace := [] |}.

Definition M (A : Type) : Type := world → state → result A * state.

Definition ret {A} (a : A) : M A := λ _ st, (Ok a, st).

Definition bind {A B} (m : M A) (k : A → M B) : M B :=
  λ W st,
    match m W st with
    | (Ok a, st') => k a W st'
    | (Raise e, st') => (Raise e, st')
    end.

Definition raise {A} (e : exn) : M A := λ _ st, (Raise e, st).

Declare Scope py_scope.
Delimit Scope py_scope with py.
Notation "x <- m ;; k" := (bind m (λ x, k))
  (at level 100, m at next level, right associativity) : py_scope.
Notation "m ;; k" := (bind m (λ _, k))
  (at level 100, right associativity) : py_scope.
Local Open Scope py_scope.

(** [try: body / except <class> as e: handler e].  What the clause does not
    match goes on to the caller. *)
Definition try_except {A} (body : M A) (matches : exn → bool) (handler : exn → M A) : M A :=
  λ W st,
    match body W st with
    | (Raise e, st') => if matches e then handler e W st' else (Raise e, st')
    | r => r
    end.

Definition ask {A} (f : world → A) : M A := λ W st, (Ok (f W), st).

Definition emit (ev : event) : M unit := λ _ st, (Ok tt, set_trace (λ tr, tr ++ [ev]) st).

(** A call into the outside world: the call is recorded, and the world,
    given the events before it, decides what it returns or raises. *)
Definition call {A} (ev : event) (answer : world → list event → result A) : M A :=
  λ W st, (answer W (trace st), set_trace (λ tr, tr ++ [ev]) st).

Definition raises (o : option exn) : result unit :=
  match o with None => Ok tt | Some e => Raise e end.

Definition external (ev : event) (answer : world → list event → option exn) : M unit :=
  call ev (λ W tr, raises (answer W tr)).

Definition log (level : log_level) (msg : string) : M unit := emit (ELog level msg).

(** [assert b] *)
Definition assert (b : bool) : M unit :=
  if b then ret tt else raise (Exn AssertionError "" None).

Definition LF : string := String (Ascii.ascii_of_nat 10) "".

(** ** [USBDriver] *)

Module USBDriver.
Import USBDriver_.

Definition get (self : ref) : M t :=
  λ _ st,
    match drivers st !! self with
    | Some this => (Ok this, st)
    | None => (Raise (Exn ReferenceError "USBDriver" None), st)
    end.

Definition put (self : ref) (this : t) : M unit :=
  λ _ st, (Ok tt, set_drivers (insert self this) st).

Definition ID_VENDOR (this : t) : Z := idVendor (dev this).
Definition ID_PRODUCT (this : t) : Z := idProduct (dev this).

(** [find], taking any keyword arguments: [return True] *)
Definition find {V} (self : ref) (kwargs : gmap string V) : M bool := ret true.

Definition __init__ (device : Device) : M ref :=
  λ _ st,
    let self := fresh (dom (drivers st)) in
    (Ok self,
     set_drivers (insert self {| dev := device; _in := None; _out := None |}) st).

(** [ep.bEndpointAddress] on an attribute that may hold [None] *)
Definition getattr_bEndpointAddress (ep : option Endpoint) : M Z :=
  match ep with
  | Some e => ret (bEndpointAddress e)
  | None =>
      raise (Exn AttributeError
               "'NoneType' object has no attribute 'bEndpointAddress'" None)
  end.

Definition open (self : ref) : M unit :=
  this <- get self ;;
  log DEBUG ("Using USB Device: " +:+ pretty (ID_PRODUCT this) +:+ ":"
             +:+ pretty (ID_VENDOR this)) ;;
  shown <- ask (λ W, str_device W (dev this)) ;;
  log DEBUG ("USB Config values..." +:+ LF +:+ shown) ;;
  external (EDevSetConfiguration (dev this))
           (λ W tr, dev_set_configuration W tr (dev this)) ;;
  try_except
    (external (EDevReset (dev this)) (λ W tr, dev_reset W tr (dev this)))
    is_NotImplementedError
    (λ _, log WARNING "Could not reset the device, not implemented in usb backend") ;;
  windows <- ask is_windows ;;
  (if windows : bool then emit (ESleep 2) else ret tt) ;;
  external (EDevGetActiveConfiguration (dev this))
           (λ W tr, dev_get_active_configuration W tr (dev this)) ;;
  let cfg := active_configuration (dev this) in
  intf <- match Configuration_getitem cfg (0%nat, 0%nat) with
          | Some i => ret i
          | None => raise (Exn IndexError "Invalid interface index 0" None)
          end ;;
  this <- get self ;;
  put self {| dev := dev this; _in := _in this;
              _out := find_descriptor (endpoints intf)
                        (λ e, (endpoint_direction (bEndpointAddress e) =? ENDPOINT_OUT)%Z) |} ;;
  this <- get self ;;
  _ <- getattr_bEndpointAddress (_out this) ;;
  log DEBUG "USB Endpoint out: %s, %s" ;;
  this <- get self ;;
  put self {| dev := dev this;
              _in := find_descriptor (endpoints intf)
                       (λ e, (endpoint_direction (bEndpointAddress e) =? ENDPOINT_IN)%Z);
              _out := _out this |} ;;
  this <- get self ;;
  _ <- getattr_bEndpointAddress (_in this) ;;
  log DEBUG "USB Endpoint in: %s, %s" ;;
  this <- get self ;;
  assert (bool_decide (is_Some (_out this)) && bool_decide (is_Some (_in this))).

Definition close (self : ref) : M unit :=
  log DEBUG "Skipping USB Device Close: not supported in Monkey Patch".
End USBDriver.

(** [driver.open()] and [driver.close()], dispatched on the object's
    class; the call itself is recorded. *)
Definition Driver_open (d : driver_obj) : M unit :=
  match d with
  | Patched r => emit (EDriverOpen d) ;; USBDriver.open r
  | Foreign k => external (EDriverOpen d) (λ W tr, foreign_open W tr k)
  end.

Definition Driver_close (d : driver_obj) : M unit :=
  match d with
  | Patched r => emit (EDriverClose d) ;; USBDriver.close r
  | Foreign k => external (EDriverClose d) (λ W tr, foreign_close W tr k)
  end.

(** ** [AntTransceiverDevice]: the device pump *)

Module AntTransceiverDevice.
Import AntTransceiverDevice_.

Definition get (self : ref) : M t :=
  λ _ st,
    match pumps st !! self with
    | Some this => (Ok this, st)
    | None => (Raise (Exn ReferenceError "AntTransceiverDevice" None), st)
    end.

Definition put (self : ref) (this : t) : M unit :=
  λ _ st, (Ok tt, set_pumps (insert self this) st).

Definition set_worker_thread (th : Thread) (this : t) : t :=
  {| _driver := _driver this; _message_queue := _message_queue this;
     _events := _events this; _buffer := _buffer this;
     _burst_data := _burst_data this; _last_data := _last_data this;
     _running := _running this; _worker_thread := Some th |}.

(** [openant.base.ant.Ant.reset_system], inherited. *)
Definition reset_system (self : ref) : M unit :=
  external (EAntResetSystem self) (λ W tr, ant_reset_system W tr self).

Definition __init__ (driver : driver_obj) : M ref :=
  self <- (λ _ st,
            let self := fresh (dom (pumps st)) in
            (Ok self,
             set_pumps (insert self
               {| _driver := driver; _message_queue := []; _events := [];
                  _buffer := []; _burst_data := []; _last_data := [];
                  _running := true; _worker_thread := None |}) st)) ;;
  this <- get self ;;
  Driver_open (_driver this) ;;
  let th := {| target := Ant_worker self; name := "openant.base" |} in
  this <- get self ;;
  put self (set_worker_thread th this) ;;
  emit (EThreadStart th) ;;
  reset_system self ;;
  ret self.
End AntTransceiverDevice.

(** ** [AntTransceiver]: the node *)

Module AntTransceiver.
Import AntTransceiver_.

Definition get (self : ref) : M t :=
  λ _ st,
    match nodes st !! self with
    | Some this => (Ok this, st)
    | None => (Raise (Exn ReferenceError "AntTransceiver" None), st)
    end.

Definition put (self : ref) (this : t) : M unit :=
  λ _ st, (Ok tt, set_nodes (insert self this) st).

Definition set_worker_thread (th : Thread) (this : t) : t :=
  {| _responses := _responses this; _events := _events this; _datas := _datas this;
     serial := serial this; ant_version := ant_version this;
     max_networks := max_networks this; max_channels := max_channels this;
     channels := channels this; standard_options := standard_options this;
     advanced_options := advanced_options this;
     advanced_options_two := advanced_options_two this;
     advanced_options_three := advanced_options_three this;
     max_sensorcore_channels := max_sensorcore_channels this;
     ant := ant this; _running := _running this; _worker_thread := Some th |}.

Definition __init__ (ant : ref) : M ref :=
  self <- (λ _ st,
            let self := fresh (dom (nodes st)) in
            (Ok self,
             set_nodes (insert self
               {| _responses := []; _events := []; _datas := [];
                  serial := None; ant_version := None;
                  max_networks := 8; max_channels := 8;
                  channels := []; standard_options := ∅; advanced_options := ∅;
                  advanced_options_two := ∅; advanced_options_three := ∅;
                  max_sensorcore_channels := 0;
                  ant := ant; _running := true; _worker_thread := None |}) st)) ;;
  let th := {| target := Node_worker self; name := "openant.easy" |} in
  this <- get self ;;
  put self (set_worker_thread th this) ;;
  emit (EThreadStart th) ;;
  ret self.

(** The [transceiver] property. *)
Definition transceiver (self : ref) : M ref :=
  this <- get self ;;
  ret (ant this).

(** [openant.easy.node.Node.stop] and [set_network_key], inherited. *)
Definition stop (self : ref) : M unit :=
  external (ENodeStop self) (λ W tr, node_stop W tr self).

Definition set_network_key (self : ref) (network : Z) (key : list Z) : M unit :=
  external (ENodeSetNetworkKey self network key)
           (λ W tr, node_set_network_key W tr self network key).
End AntTransceiver.

(** ** [openant.devices.scanner.Scanner] *)

Module Scanner.
Import Scanner_.

Definition get (self : ref) : M t :=
  λ _ st,
    match scanners st !! self with
    | Some this => (Ok this, st)
    | None => (Raise (Exn ReferenceError "Scanner" None), st)
    end.

Definition put (self : ref) (this : t) : M unit :=
  λ _ st, (Ok tt, set_scanners (insert self this) st).

(** [Scanner(transceiver)]: the library's constructor may raise; when it
    returns there is a new scanner on that node. *)
Definition __init__ (transceiver : ref) : M ref :=
  external (EScannerNew transceiver) (λ W tr, scanner_new W tr transceiver) ;;
  λ _ st,
    let self := fresh (dom (scanners st)) in
    (Ok self,
     set_scanners (insert self
       {| node := transceiver; on_found := None; on_update := None |}) st).

Definition close_channel (self : ref) : M unit :=
  external (EScannerCloseChannel self) (λ W tr, scanner_close_channel W tr self).
End Scanner.

(** ** [src/ant/ant.py] *)

(** [ScannerCallbacks]: a dict that may or may not hold each key. *)
Definition DEFAULT_SCANNER_CALLBACKS : gmap string callback :=
  <["on_found" := DefaultOnFound]> (<["on_update" := DefaultOnUpdate]> ∅).

(** [if error: ...] on a string *)
Definition truthy (s : string) : bool :=
  match s with EmptyString => false | _ => true end.

Definition teardown_transceiver (usb_driver : option driver_obj) (transceiver : option ref)
  : M unit :=
  let error := "" in
  error <- match transceiver with
           | Some t =>
               try_except (AntTransceiver.stop t ;; ret error) is_Exception
                 (λ e,
                    let error := error +:+ "Failed to stop the ANT+ Node: " +:+ exn_msg e in
                    log DEBUG "Failed to stop the ANT+ Node" ;;
                    ret error)
           | None => ret error
           end ;;
  error <- match usb_driver with
           | Some d =>
               try_except (Driver_close d ;; ret error) is_Exception
                 (λ e,
                    let error := error +:+ "Failed to close the USB Device: " +:+ exn_msg e in
                    log DEBUG "Failed to close the USB Device" ;;
                    ret error)
           | None => ret error
           end ;;
  if truthy error then raise (Exn RuntimeError error None) else ret tt.

(** The [except] clause of the second [try] of [setup_transceiver], with
    the values the two locals hold when it is entered. *)
Definition setup_transceiver_failed {A} (usb_driver : option driver_obj)
    (transceiver : option ref) (e : exn) : M A :=
  log DEBUG "Some Error encountered while setting up the Transceiver; will teardown" ;;
  try_except (teardown_transceiver usb_driver transceiver) is_Exception
    (λ ee, log DEBUG "Failed to teardown the ANT Transceiver") ;;
  raise (Exn RuntimeError "Failed to setup the ANT Transceiver" (Some e)).

Definition setup_transceiver (usb_id : USBIdentity) (libusb1_path : option string)
  : M (ref * ref) :=
  usb_dev <-
    try_except
      (usb_dev <- match libusb1_path with
                  | Some path =>
                      log DEBUG ("Using custom libusb1 path: " +:+ path) ;;
                      external (EGetBackend path) (λ W tr, usb_get_backend W tr path) ;;
                      call (EUsbFind usb_id (Some path))
                           (λ W tr, usb_find W tr usb_id (Some path))
                  | None =>
                      log DEBUG "Searching for an available USB Backend" ;;
                      call (EUsbFind usb_id None) (λ W tr, usb_find W tr usb_id None)
                  end ;;
       match usb_dev with
       | FoundNone => raise (Exn Exception "Unexpected Error: Failed to set a device" None)
       | _ => ret usb_dev
       end)
      is_Exception
      (λ e, raise (Exn RuntimeError
                     ("Couldn't find the `ANT USB-M Transceiver` USB Device: ("
                      +:+ class_name (exn_class e) +:+ ") " +:+ exn_msg e) None)) ;;
  log SUCCESS "Found the `ANT USB-M Transceiver` USB Device" ;;
  usb_dev <- match usb_dev with
             | FoundGenerator _devs =>
                 match _devs with
                 | d0 :: _ :: _ =>
                     log DEBUG "Multiple devices found, using the first one" ;;
                     ret (FoundDevice d0)
                 | _ => ret usb_dev
                 end
             | _ => ret usb_dev
             end ;;
  usb_dev <- match usb_dev with
             | FoundDevice d => ret d
             | _ => raise (Exn AssertionError "" None)
             end ;;
  shown <- ask (λ W, str_device W usb_dev) ;;
  log DEBUG ("Found USB Device..." +:+ LF +:+ shown) ;;
  external (EDevSetConfiguration usb_dev) (λ W tr, dev_set_configuration W tr usb_dev) ;;
  usb_driver <-
    try_except
      (log DEBUG "Setting up ANT Transceiver USB Driver" ;;
       USBDriver.__init__ usb_dev)
      is_Exception (setup_transceiver_failed None None) ;;
  transceiver <-
    try_except
      (log DEBUG "Setting up ANT Transceiver" ;;
       pump <- AntTransceiverDevice.__init__ (Patched usb_driver) ;;
       AntTransceiver.__init__ pump)
      is_Exception (setup_transceiver_failed (Some (Patched usb_driver)) None) ;;
  try_except
    (key <- ask ANTPLUS_NETWORK_KEY ;;
     AntTransceiver.set_network_key transceiver 0x00 key)
    is_Exception
    (setup_transceiver_failed (Some (Patched usb_driver)) (Some transceiver)) ;;
  ret (usb_driver, transceiver).

Definition teardown_scanner (client_scanner : option ref) : M unit :=
  match client_scanner with
  | None => ret tt
  | Some sc =>
      let error := "" in
      error <- try_except (Scanner.close_channel sc ;; ret error) is_Exception
                 (λ e,
                    let error := error +:+ "Failed to stop the ANT Client Scanner: "
                                 +:+ exn_msg e in
                    log DEBUG "Failed to stop the ANT Client Scanner" ;;
                    ret error) ;;
      if truthy error then raise (Exn RuntimeError error None) else ret tt
  end.

(** The [except] clause of [setup_scanner]. *)
Definition setup_scanner_failed {A} (client_scanner : option ref) (e : exn) : M A :=
  log DEBUG "Some Error encountered while setting up the Client Scanner; will teardown" ;;
  try_except (teardown_scanner client_scanner) is_Exception
    (λ ee, log DEBUG "Failed to teardown the ANT Client Scanner") ;;
  raise (Exn RuntimeError "Failed to setup the ANT Client Scanner" (Some e)).

(** [client_scanner.on_found = cb] and [client_scanner.on_update = cb] *)
Definition set_on_found (sc : ref) (cb : callback) : M unit :=
  this <- Scanner.get sc ;;
  Scanner.put sc {| Scanner_.node := Scanner_.node this;
                    Scanner_.on_found := Some cb;
                    Scanner_.on_update := Scanner_.on_update this |}.

Definition set_on_update (sc : ref) (cb : callback) : M unit :=
  this <- Scanner.get sc ;;
  Scanner.put sc {| Scanner_.node := Scanner_.node this;
                    Scanner_.on_found := Scanner_.on_found this;
                    Scanner_.on_update := Some cb |}.

(** The function ends without a [return]: a run that raises nothing hands
    [None] back, whatever scanner it built. *)
Definition setup_scanner (transceiver : ref) (callbacks : gmap string callback)
  : M (option ref) :=
  client_scanner <-
    try_except
      (log DEBUG "Setting up ANT Client Scanner" ;;
       Scanner.__init__ transceiver)
      is_Exception (setup_scanner_failed None) ;;
  try_except
    (match callbacks !! "on_found" with
     | Some cb => set_on_found client_scanner cb
     | None => ret tt
     end ;;
     match callbacks !! "on_update" with
     | Some cb => set_on_update client_scanner cb
     | None => ret tt
     end)
    is_Exception (setup_scanner_failed (Some client_scanner)) ;;
  ret None.

(** *** Data schemas *)

(** [openant.devices.heart_rate.HeartRateData]: the four attributes read
    here. *)
Record HeartRateData : Type := {
  heart_rate : Z;
  beat_count : Z;
  beat_time : float;
  previous_heart_beat_time : float;
}.

Module Metadata.
Record Time : Type := { unit : string; datum : Z; diff : Z }.
Record t : Type := { time : Time }.
End Metadata.

Module HeartRateSpec.
Record BeatTime : Type := { cur : float; prev : float }.
Record Data : Type := { bpm : Z; beat : Z; time : BeatTime }.
Record t : Type := { kind : string; metadata : Metadata.t; data : Data }.

Definition from_data (data : HeartRateData) (metadata : Metadata.t) : t :=
  {| kind := "heart_rate";
     metadata := metadata;
     data := {| bpm := heart_rate data;
                beat := beat_count data;
                time := {| cur := beat_time data;
                           prev := previous_heart_beat_time data |} |} |}.
End HeartRateSpec.

(** ** Observations on runs *)

Definition is_thread_start (ev : event) : bool :=
  match ev with EThreadStart _ => true | _ => false end.

Definition is_set_network_key (ev : event) : bool :=
  match ev with ENodeSetNetworkKey _ _ _ => true | _ => false end.

(** How many events of a kind a trace holds. *)
Definition occurrences (f : event → bool) (evs : list event) : nat :=
  length (List.filter f evs).

(** [m] adds at most [n] events of kind [f] to the trace, whatever the
    world and the state it starts in, and whether it returns or raises. *)
Definition at_most (f : event → bool) (n : nat) {A} (m : M A) : Prop :=
  ∀ W st, ∃ evs, trace (m W st).2 = trace st ++ evs ∧ (occurrences f evs ≤ n)%nat.

(** ** The endpoints the specification speaks of *)

Definition is_out (e : Endpoint) : bool :=
  (endpoint_direction (bEndpointAddress e) =? ENDPOINT_OUT)%Z.
Definition is_in (e : Endpoint) : bool :=
  (endpoint_direction (bEndpointAddress e) =? ENDPOINT_IN)%Z.
Definition is_bulk (e : Endpoint) : bool :=
  (endpoint_type (bmAttributes e) =? ENDPOINT_TYPE_BULK)%Z.

(** Interface 0, alternate setting 0 of the device's active configuration. *)
Definition interface00 (d : Device) : option Interface :=
  Configuration_getitem (active_configuration d) (0%nat, 0%nat).

Definition first_out (i : Interface) : option Endpoint := find_descriptor (endpoints i) is_out.
Definition first_in (i : Interface) : option Endpoint := find_descriptor (endpoints i) is_in.

(** As the specification words it: the first bulk endpoint of a
    direction. *)
Definition spec_first_bulk_out (i : Interface) : option Endpoint :=
  find_descriptor (endpoints i) (λ e, is_out e && is_bulk e).
Definition spec_first_bulk_in (i : Interface) : option Endpoint :=
  find_descriptor (endpoints i) (λ e, is_in e && is_bulk e).

(** As the specification words it: the transport owns the USB handle and
    the endpoint descriptors, so a driver that has released its resources
    holds neither endpoint any more. *)
Definition spec_released (st : state) (self : ref) : Prop :=
  ∃ this, drivers st !! self = Some this
          ∧ USBDriver_._in this = None ∧ USBDriver_._out this = None.

(** A world in which the calls on device [d] go through: only a reset
    that the backend does not implement may fail. *)
Definition device_answers (W : world) (d : Device) : Prop :=
  (∀ tr, dev_set_configuration W tr d = None)
  ∧ (∀ tr e, dev_reset W tr d = Some e → is_NotImplementedError e = true)
  ∧ (∀ tr, dev_get_active_configuration W tr d = None).

(** ** Concrete devices and worlds *)

Definition bulk_in : Endpoint := {| bEndpointAddress := 0x81; bmAttributes := 0x02 |}.
Definition bulk_out : Endpoint := {| bEndpointAddress := 0x01; bmAttributes := 0x02 |}.
Definition bulk_out2 : Endpoint := {| bEndpointAddress := 0x02; bmAttributes := 0x02 |}.
Definition intr_in : Endpoint := {| bEndpointAddress := 0x82; bmAttributes := 0x03 |}.
Definition intr_out : Endpoint := {| bEndpointAddress := 0x03; bmAttributes := 0x03 |}.

Definition device_with (eps : list Endpoint) : Device :=
  {| idVendor := 0x0fcf; idProduct := 0x1009;
     active_configuration :=
       {| interfaces := [[ {| bInterfaceNumber := 0; bAlternateSetting := 0;
                             endpoints := eps |} ]] |} |}.

(** The usual stick: one bulk endpoint each way. *)
Definition ant_stick : Device := device_with [bulk_in; bulk_out].
(** Both directions present, neither of them bulk. *)
Definition interrupt_only : Device := device_with [intr_in; intr_out].
(** An interrupt OUT endpoint listed before the bulk one. *)
Definition interrupt_first : Device := device_with [intr_out; bulk_out2; bulk_in].
(** No OUT endpoint at all. *)
Definition no_out : Device := device_with [bulk_in].

(** Nothing outside the repository ever fails; [usb.core.find] yields two
    sticks. *)
Definition quiet_world : world := {|
  is_windows := false;
  ANTPLUS_NETWORK_KEY := [0xB9; 0xA5; 0x21; 0xFB; 0xBD; 0x72; 0xC3; 0x45];
  str_device := λ _, "DEVICE";
  usb_get_backend := λ _ _, None;
  usb_find := λ _ _ _, Ok (FoundGenerator [ant_stick; ant_stick]);
  dev_set_configuration := λ _ _, None;
  dev_reset := λ _ _, None;
  dev_get_active_configuration := λ _ _, None;
  foreign_open := λ _ _, None;
  foreign_close := λ _ _, None;
  ant_reset_system := λ _ _, None;
  node_stop := λ _ _, None;
  node_set_network_key := λ _ _ _ _, None;
  scanner_new := λ _ _, None;
  scanner_close_channel := λ _ _, None;
|}.

(** As [quiet_world], but [Node.stop] raises and so does the [close] of
    every foreign driver. *)
Definition failing_world : world := {|
  is_windows := false;
  ANTPLUS_NETWORK_KEY := ANTPLUS_NETWORK_KEY quiet_world;
  str_device := λ _, "DEVICE";
  usb_get_backend := λ _ _, None;
  usb_find := λ _ _ _, Ok (FoundGenerator [ant_stick; ant_stick]);
  dev_set_configuration := λ _ _, None;
  dev_reset := λ _ _, None;
  dev_get_active_configuration := λ _ _, None;
  foreign_open := λ _ _, Some (Exn USBError "no such device" None);
  foreign_close := λ _ _, Some (Exn USBError "gone" None);
  ant_reset_system := λ _ _, None;
  node_stop := λ _ _, Some (Exn RuntimeError "worker still running" None);
  node_set_network_key := λ _ _ _ _, None;
  scanner_new := λ _ _, None;
  scanner_close_channel := λ _ _, None;
|}.

(** A store holding one driver, number 0, built on device [d] and not yet
    opened. *)
Definition fresh_driver (d : Device) : state :=
  (USBDriver.__init__ d quiet_world empty_state).2.

(** The same driver after [open()] in the quiet world. *)
Definition opened_driver (d : Device) : state :=
  (USBDriver.open 0%nat quiet_world (fresh_driver d)).2.

(** ** Further devices and worlds *)

(** What reading [bEndpointAddress] off [None] raises. *)
Definition no_bEndpointAddress : exn :=
  Exn AttributeError "'NoneType' object has no attribute 'bEndpointAddress'" None.

(** No IN endpoint at all. *)
Definition no_in : Device := device_with [bulk_out].

(** A configuration without any interface. *)
Definition bare_device : Device :=
  {| idVendor := 0x0fcf; idProduct := 0x1009;
     active_configuration := {| interfaces := [] |} |}.

(** [quiet_world] with some of its answers replaced. *)
Definition with_set_configuration (f : list event → Device → option exn) (W : world)
  : world :=
  {| is_windows := is_windows W;
     ANTPLUS_NETWORK_KEY := ANTPLUS_NETWORK_KEY W;
     str_device := str_device W;
     usb_get_backend := usb_get_backend W;
     usb_find := usb_find W;
     dev_set_configuration := f;
     dev_reset := dev_reset W;
     dev_get_active_configuration := dev_get_active_configuration W;
     foreign_open := foreign_open W;
     foreign_close := foreign_close W;
     ant_reset_system := ant_reset_system W;
     node_stop := node_stop W;
     node_set_network_key := node_set_network_key W;
     scanner_new := scanner_new W;
     scanner_close_channel := scanner_close_channel W |}.

Definition with_node_stop (f : list event → ref → option exn) (W : world) : world :=
  {| is_windows := is_windows W;
     ANTPLUS_NETWORK_KEY := ANTPLUS_NETWORK_KEY W;
     str_device := str_device W;
     usb_get_backend := usb_get_backend W;
     usb_find := usb_find W;
     dev_set_configuration := dev_set_configuration W;
     dev_reset := dev_reset W;
     dev_get_active_configuration := dev_get_active_configuration W;
     foreign_open := foreign_open W;
     foreign_close := foreign_close W;
     ant_reset_system := ant_reset_system W;
     node_stop := f;
     node_set_network_key := node_set_network_key W;
     scanner_new := scanner_new W;
     scanner_close_channel := scanner_close_channel W |}.

Definition with_scanner_new (f : list event → ref → option exn) (W : world) : world :=
  {| is_windows := is_windows W;
     ANTPLUS_NETWORK_KEY := ANTPLUS_NETWORK_KEY W;
     str_device := str_device W;
     usb_get_backend := usb_get_backend W;
     usb_find := usb_find W;
     dev_set_configuration := dev_set_configuration W;
     dev_reset := dev_reset W;
     dev_get_active_configuration := dev_get_active_configuration W;
     foreign_open := foreign_open W;
     foreign_close := foreign_close W;
     ant_reset_system := ant_reset_system W;
     node_stop := node_stop W;
     node_set_network_key := node_set_network_key W;
     scanner_new := f;
     scanner_close_channel := scanner_close_channel W |}.

Definition with_usb_find (f : list event → USBIdentity → option string → result found)
    (W : world) : world :=
  {| is_windows := is_windows W;
     ANTPLUS_NETWORK_KEY := ANTPLUS_NETWORK_KEY W;
     str_device := str_device W;
     usb_get_backend := usb_get_backend W;
     usb_find := f;
     dev_set_configuration := dev_set_configuration W;
     dev_reset := dev_reset W;
     dev_get_active_configuration := dev_get_active_configuration W;
     foreign_open := foreign_open W;
     foreign_close := foreign_close W;
     ant_reset_system := ant_reset_system W;
     node_stop := node_stop W;
     node_set_network_key := node_set_network_key W;
     scanner_new := scanner_new W;
     scanner_close_channel := scanner_close_channel W |}.

(** The device refuses to be configured. *)
Definition unplugged_world : world :=
  with_set_configuration (λ _ _, Some (Exn USBError "No such device" None)) quiet_world.

(** Ctrl-C arrives while the node is being stopped. *)
Definition interrupted_world : world :=
  with_node_stop (λ _ _, Some (Exn KeyboardInterrupt "" None)) quiet_world.

(** The library cannot build a scanner. *)
Definition scannerless_world : world :=
  with_scanner_new (λ _ _, Some (Exn (ForeignError "AntException") "no free channel" None))
    quiet_world.

(** [usb.core.find] finds nothing, or hands back a generator of one. *)
Definition empty_bus_world : world := with_usb_find (λ _ _ _, Ok FoundNone) quiet_world.
Definition lone_stick_world : world :=
  with_usb_find (λ _ _ _, Ok (FoundGenerator [ant_stick])) quiet_world.
Definition single_device_world : world :=
  with_usb_find (λ _ _ _, Ok (FoundDevice ant_stick)) quiet_world.

Definition ant_usb_m : USBIdentity := {| product := 0x1009; vendor := 0x0fcf |}.

(** [usb.core.find] is denied access to the bus. *)
Definition forbidden_bus_world : world :=
  with_usb_find (λ _ _ _, Raise (Exn USBError "Access denied (insufficient permissions)" None))
    quiet_world.

(** The events of the search for the device. *)
Definition search_events (usb_id : USBIdentity) (libusb1_path : option string)
  : list event :=
  match libusb1_path with
  | Some path => [ELog DEBUG ("Using custom libusb1 path: " +:+ path);
                  EGetBackend path; EUsbFind usb_id (Some path)]
  | None => [ELog DEBUG "Searching for an available USB Backend"; EUsbFind usb_id None]
  end.

(** One stick on the bus, which refuses to be configured. *)
Definition unplugged_single_world : world :=
  with_usb_find (λ _ _ _, Ok (FoundDevice ant_stick)) unplugged_world.

(** ** [src/ant/__main__.py]: scanning for clients *)

(** [isinstance(e, KeyboardInterrupt)] *)
Definition is_KeyboardInterrupt (e : exn) : bool :=
  match exn_class e with
  | KeyboardInterrupt => true
  | _ => false
  end.

(** One statement of a [try] block.  If it raises, control leaves the
    block through [leave], which stands for the [except] and [finally]
    clauses with the locals as they are at that point; otherwise the block
    goes on with [k]. *)
Definition in_try {A B} (m : M A) (leave : exn → M B) (k : A → M B) : M B :=
  λ W st,
    match m W st with
    | (Ok a, st') => k a W st'
    | (Raise e, st') => leave e W st'
    end.

Section ScanForClients.

(** [Node.start], inherited from the library: it runs the node's main loop
    until the node is stopped or the user interrupts.  What it does is a
    parameter. *)
Variable Node_start : ref → M unit.

(** The [finally] clause, with the three locals it reads. *)
Definition scan_finally (usb_dev : option ref) (ant_trancvr : option ref)
    (client_scanner : option ref) : M unit :=
  try_except (teardown_scanner client_scanner) is_Exception
    (λ e, log WARNING ("Failed to stop the ANT+ Client Scanner: " +:+ exn_msg e)) ;;
  try_except (teardown_transceiver (Patched <$> usb_dev) ant_trancvr) is_Exception
    (λ e, log WARNING ("Failed to teardown the ANT+ Transceiver: " +:+ exn_msg e)).

(** What follows the [try] statement. *)
Definition scan_complete : M Z :=
  log SUCCESS "Scan Complete" ;;
  ret 0.

(** Leaving the [try] block on exception [e]: a [KeyboardInterrupt] is
    handled, the [finally] clause runs, and the function goes on;
    anything else is raised again once the [finally] clause has run. *)
Definition scan_leave (usb_dev : option ref) (ant_trancvr : option ref)
    (client_scanner : option ref) (e : exn) : M Z :=
  if is_KeyboardInterrupt e then
    log WARNING "User Requested Teardown" ;;
    scan_finally usb_dev ant_trancvr client_scanner ;;
    scan_complete
  else
    scan_finally usb_dev ant_trancvr client_scanner ;;
    raise e.

Definition scan_for_clients (identity : USBIdentity) (libusb1_path : option string) : M Z :=
  log INFO "Scanning for ANT+ Client Devices" ;;
  in_try (setup_transceiver identity libusb1_path) (scan_leave None None None)
    (λ '(usb_dev, ant_trancvr),
  in_try (setup_scanner ant_trancvr DEFAULT_SCANNER_CALLBACKS)
    (scan_leave (Some usb_dev) (Some ant_trancvr) None)
    (λ client_scanner,
  in_try (Node_start ant_trancvr)
    (scan_leave (Some usb_dev) (Some ant_trancvr) client_scanner)
    (λ _,
  scan_finally (Some usb_dev) (Some ant_trancvr) client_scanner ;;
  scan_complete))).

End ScanForClients.

Definition is_scanner_close (ev : event) : bool :=
  match ev with EScannerCloseChannel _ => true | _ => false end.

(** The user presses Ctrl-C as soon as the node runs. *)
Definition interrupted_start (_ : ref) : M unit := raise (Exn KeyboardInterrupt "" None).

(** ** [src/ant/__main__.py]: the heart-rate callback of [read_client] *)

(** The metadata the callback builds: [datum] is the clock reading taken
    when the callback was made, [now] the reading of this call. *)
Definition stamp (datum now : Z) : Metadata.t :=
  {| Metadata.time := {| Metadata.unit := "ns"; Metadata.datum := datum;
                         Metadata.diff := now - datum |} |}.

(** The closure [_log_data].  [last_beat_idx] is its nonlocal; the result
    is the value it leaves there and the record it writes to standard
    output, if any.  The page number and name it is given are not read. *)
Definition _log_data (datum : Z) (last_beat_idx : Z) (now : Z) (data : HeartRateData)
  : Z * option HeartRateSpec.t :=
  let metadata := stamp datum now in
  if (last_beat_idx =? beat_count data)%Z then (last_beat_idx, None)
  else (beat_count data, Some (HeartRateSpec.from_data data metadata)).

(** The records written while the device delivers [pages], each with the
    clock reading of its delivery. *)
Fixpoint log_pages (datum : Z) (last_beat_idx : Z) (pages : list (Z * HeartRateData))
  : list HeartRateSpec.t :=
  match pages with
  | [] => []
  | (now, data) :: rest =>
      let '(last_beat_idx', out) := _log_data datum last_beat_idx now data in
      match out with
      | Some record => record :: log_pages datum last_beat_idx' rest
      | None => log_pages datum last_beat_idx' rest
      end
  end.

(** [read_client] starts the callback with [last_beat_idx = -1]. *)
Definition heart_rate_output (datum : Z) (pages : list (Z * HeartRateData))
  : list HeartRateSpec.t :=
  log_pages datum (-1) pages.

(** The beat count changes from each page to the next, starting from
    [last]. *)
Fixpoint beats_change (last : Z) (pages : list (Z * HeartRateData)) : bool :=
  match pages with
  | [] => true
  | (_, data) :: rest =>
      negb (last =? beat_count data)%Z && beats_change (beat_count data) rest
  end.

Definition beat_of (record : HeartRateSpec.t) : Z :=
  HeartRateSpec.beat (HeartRateSpec.data record).

(** Two pages of the same beat, then one of the next beat. *)
Definition beat7 : HeartRateData :=
  {| heart_rate := 61; beat_count := 7; beat_time := PrimFloat.one;
     previous_heart_beat_time := PrimFloat.zero |}.
Definition beat7_again : HeartRateData :=
  {| heart_rate := 62; beat_count := 7; beat_time := PrimFloat.one;
     previous_heart_beat_time := PrimFloat.zero |}.
Definition beat8 : HeartRateData :=
  {| heart_rate := 62; beat_count := 8; beat_time := PrimFloat.two;
     previous_heart_beat_time := PrimFloat.one |}.
Definition sample_pages : list (Z * HeartRateData) :=
  [(1000, beat7); (1250, beat7_again); (1500, beat8)].

(** ** [src/ant/__main__.py]: the command line *)

(** The values a keyword argument can hold: a string, [None] or [True]. *)
Inductive argval : Type :=
| VStr (s : string)
| VNone
| VTrue.

(** [c in s], for a one-character [c] *)
Fixpoint contains (c : Ascii.ascii) (s : string) : bool :=
  match s with
  | EmptyString => false
  | String a rest => if Ascii.eqb a c then true else contains c rest
  end.

(** [s.startswith(p)] *)
Fixpoint startswith (p s : string) : bool :=
  match p with
  | EmptyString => true
  | String a p' =>
      match s with
      | EmptyString => false
      | String b s' => Ascii.eqb a b && startswith p' s'
      end
  end.

(** [s[2:]] *)
Definition drop2 (s : string) : string :=
  match s with
  | String _ (String _ rest) => rest
  | _ => ""
  end.

(** [s.split(c, 1)]: the whole string when [c] does not occur, else what
    comes before and after its first occurrence. *)
Fixpoint split1 (c : Ascii.ascii) (s : string) : list string :=
  match s with
  | EmptyString => [""]
  | String a rest =>
      if Ascii.eqb a c then [""; rest]
      else match split1 c rest with
           | head :: tail => String a head :: tail
           | [] => []
           end
  end.

Definition equals_sign : Ascii.ascii := Ascii.ascii_of_nat 61.
Definition dash : Ascii.ascii := Ascii.ascii_of_nat 45.

(** The three variables of the loop of [parse_argv], and the lines it
    hands to [logger.trace]. *)
Record parser : Type := {
  args : list string;
  kwargs : gmap string argval;
  traced : list string;
}.

(** The loop of [parse_argv] from index [idx] on, [argv] being what is left
    of the argument list there.  [None] stands for the [ValueError] of
    unpacking a split that has not two parts. *)
Fixpoint parse_loop (idx : nat) (argv : list string) (p : parser) : option parser :=
  match argv with
  | [] => Some p
  | arg :: rest =>
      if String.eqb arg "--" then
        Some {| args := args p ++ rest;
                kwargs := kwargs p;
                traced := traced p ++ ["Found end of arguments at index " +:+ pretty idx] |}
      else if startswith "--" arg then
        let traced' := traced p ++ ["Found keyword argument: " +:+ arg] in
        if contains equals_sign arg then
          match split1 equals_sign (drop2 arg) with
          | [key; value] =>
              parse_loop (S idx) rest
                {| args := args p; kwargs := <[key := VStr value]> (kwargs p);
                   traced := traced' |}
          | _ => None
          end
        else
          parse_loop (S idx) rest
            {| args := args p; kwargs := <[drop2 arg := VTrue]> (kwargs p);
               traced := traced' |}
      else
        parse_loop (S idx) rest
          {| args := args p ++ [arg]; kwargs := kwargs p;
             traced := traced p ++ ["Found positional argument: " +:+ arg] |}
  end.

(** [env.get(key, default)] *)
Definition env_get (env : gmap string string) (key : string) (default : argval) : argval :=
  match env !! key with
  | Some v => VStr v
  | None => default
  end.

(** The keyword arguments before any option is read. *)
Definition initial_kwargs (env : gmap string string) : gmap string argval :=
  <["log" := env_get env "LOG_LEVEL" (VStr "INFO")]>
    (<["libusb1" := env_get env "LIBUSB1_PATH" VNone]>
       (<["transceiver" := env_get env "ANT_TRANSCEIVER" (VStr "ANT USB-M Transceiver")]> ∅)).

Definition parse_argv (argv : list string) (env : gmap string string) : option parser :=
  parse_loop 0 argv {| args := []; kwargs := initial_kwargs env; traced := [] |}.

(** An argument that is an option, and the bare terminator. *)
Definition is_option (arg : string) : bool := startswith "--" arg.
Definition is_terminator (arg : string) : bool := String.eqb arg "--".

(** * Properties *)

(** ** Running the monad *)

Section MonadFacts.
Context {A B : Type}.

(** The three monad laws, pointwise, and [raise] as a left zero. *)
Lemma bind_ret_l (a : A) (k : A → M B) W st : bind (ret a) k W st = k a W st.
Proof. reflexivity. Qed.

Lemma bind_ret_r (m : M A) W st : bind m ret W st = m W st.
Proof. unfold bind, ret. by destruct (m W st) as [[a|e] st1]. Qed.

Lemma bind_assoc {C} (m : M A) (k : A → M B) (h : B → M C) W st :
  bind (bind m k) h W st = bind m (λ a, bind (k a) h) W st.
Proof. unfold bind. by destruct (m W st) as [[a|e] st1]. Qed.

Lemma bind_raise_l (e : exn) (k : A → M B) W st : bind (raise e) k W st = (Raise e, st).
Proof. reflexivity. Qed.

(** A handler is only entered on an exception its clause matches. *)
Lemma try_except_Ok (body : M A) matches handler W st a st1 :
  body W st = (Ok a, st1) → try_except body matches handler W st = (Ok a, st1).
Proof. unfold try_except. by intros ->. Qed.

Lemma try_except_pass (body : M A) matches handler W st e st1 :
  body W st = (Raise e, st1) → matches e = false →
  try_except body matches handler W st = (Raise e, st1).
Proof. unfold try_except. by intros -> ->. Qed.

Lemma try_except_caught (body : M A) matches handler W st e st1 :
  body W st = (Raise e, st1) → matches e = true →
  try_except body matches handler W st = handler e W st1.
Proof. unfold try_except. by intros -> ->. Qed.

Lemma bind_Ok_inv (m : M A) (k : A → M B) W st b st' :
  bind m k W st = (Ok b, st') →
  ∃ a st1, m W st = (Ok a, st1) ∧ k a W st1 = (Ok b, st').
Proof.
  unfold bind. destruct (m W st) as [[a|e] st1]; [eauto | discriminate].
Qed.

Lemma bind_Ok (m : M A) (k : A → M B) W st a st1 :
  m W st = (Ok a, st1) → bind m k W st = k a W st1.
Proof. unfold bind. by intros ->. Qed.

Lemma bind_Raise (m : M A) (k : A → M B) W st e st1 :
  m W st = (Raise e, st1) → bind m k W st = (Raise e, st1).
Proof. unfold bind. by intros ->. Qed.

Lemma try_except_Ok_inv (body : M A) matches handler W st a st' :
  try_except body matches handler W st = (Ok a, st') →
  body W st = (Ok a, st')
  ∨ ∃ e st1, body W st = (Raise e, st1) ∧ matches e = true
             ∧ handler e W st1 = (Ok a, st').
Proof.
  unfold try_except. destruct (body W st) as [[a'|e] st1]; [by left |].
  destruct (matches e) eqn:Hm; [right; eauto | discriminate].
Qed.
End MonadFacts.

(** ** Counting events *)

Lemma occurrences_app f evs1 evs2 :
  occurrences f (evs1 ++ evs2) = (occurrences f evs1 + occurrences f evs2)%nat.
Proof. unfold occurrences. by rewrite List.filter_app, length_app. Qed.

Lemma occurrences_zero_Forall f evs :
  occurrences f evs = 0%nat → Forall (λ ev, f ev = false) evs.
Proof.
  unfold occurrences. induction evs as [|ev evs IH]; simpl; [constructor |].
  destruct (f ev) eqn:Hf; simpl; [discriminate |]. intros H. constructor; auto.
Qed.

Section AtMost.
Variable f : event → bool.

Lemma at_most_weaken {A} (m : M A) n n' :
  (n ≤ n')%nat → at_most f n m → at_most f n' m.
Proof.
  intros Hle Hm W st. destruct (Hm W st) as (evs & Htr & Hn).
  exists evs. split; [done | lia].
Qed.

Lemma at_most_silent {A} (m : M A) :
  (∀ W st, trace (m W st).2 = trace st) → at_most f 0 m.
Proof.
  intros Hm W st. exists []. rewrite Hm, app_nil_r. split; [done | cbn; lia].
Qed.

Lemma at_most_ret {A} (a : A) : at_most f 0 (ret a).
Proof. by apply at_most_silent. Qed.

Lemma at_most_raise {A} e : at_most f 0 (raise (A:=A) e).
Proof. by apply at_most_silent. Qed.

Lemma at_most_ask {A} (g : world → A) : at_most f 0 (ask g).
Proof. by apply at_most_silent. Qed.

Lemma at_most_assert b : at_most f 0 (assert b).
Proof. destruct b; by apply at_most_silent. Qed.

Lemma at_most_call {A} ev (answer : world → list event → result A) :
  f ev = false → at_most f 0 (call ev answer).
Proof.
  intros Hf W st. exists [ev]. split; [done |].
  unfold occurrences. cbn. rewrite Hf. cbn. lia.
Qed.

Lemma at_most_call_one {A} ev (answer : world → list event → result A) :
  at_most f 1 (call ev answer).
Proof.
  intros W st. exists [ev]. split; [done |].
  unfold occurrences. cbn. destruct (f ev); cbn; lia.
Qed.

Lemma at_most_external ev answer : f ev = false → at_most f 0 (external ev answer).
Proof. apply at_most_call. Qed.

Lemma at_most_emit ev : f ev = false → at_most f 0 (emit ev).
Proof.
  intros Hf W st. exists [ev]. split; [done |].
  unfold occurrences. cbn. rewrite Hf. cbn. lia.
Qed.

Lemma at_most_log level msg : f (ELog level msg) = false → at_most f 0 (log level msg).
Proof. apply at_most_emit. Qed.

Lemma at_most_bind {A B} (m : M A) (k : A → M B) a b :
  at_most f a m → (∀ x, at_most f b (k x)) → at_most f (a + b) (bind m k).
Proof.
  intros Hm Hk W st. unfold bind.
  destruct (Hm W st) as (evs1 & Htr1 & Hn1).
  destruct (m W st) as [[x|e] st1]; simpl in *.
  - destruct (Hk x W st1) as (evs2 & Htr2 & Hn2).
    exists (evs1 ++ evs2). rewrite Htr2, Htr1, app_assoc, occurrences_app.
    split; [done | lia].
  - exists evs1. split; [done | lia].
Qed.

Lemma at_most_bind0 {A B} (m : M A) (k : A → M B) :
  at_most f 0 m → (∀ x, at_most f 0 (k x)) → at_most f 0 (bind m k).
Proof. intros Hm Hk. by apply (at_most_bind m k 0 0). Qed.

Lemma at_most_try_except {A} (body : M A) matches handler a b :
  at_most f a body → (∀ e, at_most f b (handler e)) →
  at_most f (a + b) (try_except body matches handler).
Proof.
  intros Hm Hk W st. unfold try_except.
  destruct (Hm W st) as (evs1 & Htr1 & Hn1).
  destruct (body W st) as [[x|e] st1]; simpl in *.
  - exists evs1. split; [done | lia].
  - destruct (matches e).
    + destruct (Hk e W st1) as (evs2 & Htr2 & Hn2).
      exists (evs1 ++ evs2). rewrite Htr2, Htr1, app_assoc, occurrences_app.
      split; [done | lia].
    + exists evs1. split; [done | lia].
Qed.

Lemma at_most_try_except0 {A} (body : M A) matches handler :
  at_most f 0 body → (∀ e, at_most f 0 (handler e)) →
  at_most f 0 (try_except body matches handler).
Proof. intros Hm Hk. by apply (at_most_try_except body matches handler 0 0). Qed.
End AtMost.

Arguments occurrences : simpl never.

(** The store operations leave the trace alone. *)
Lemma USBDriver_get_silent f self : at_most f 0 (USBDriver.get self).
Proof.
  apply at_most_silent. intros W st. unfold USBDriver.get.
  by destruct (drivers st !! self).
Qed.

Lemma USBDriver_put_silent f self this : at_most f 0 (USBDriver.put self this).
Proof. by apply at_most_silent. Qed.

Lemma USBDriver_init_silent f d : at_most f 0 (USBDriver.__init__ d).
Proof. by apply at_most_silent. Qed.

Lemma pump_get_silent f self : at_most f 0 (AntTransceiverDevice.get self).
Proof.
  apply at_most_silent. intros W st. unfold AntTransceiverDevice.get.
  by destruct (pumps st !! self).
Qed.

Lemma pump_put_silent f self this : at_most f 0 (AntTransceiverDevice.put self this).
Proof. by apply at_most_silent. Qed.

Lemma node_get_silent f self : at_most f 0 (AntTransceiver.get self).
Proof.
  apply at_most_silent. intros W st. unfold AntTransceiver.get.
  by destruct (nodes st !! self).
Qed.

Lemma node_put_silent f self this : at_most f 0 (AntTransceiver.put self this).
Proof. by apply at_most_silent. Qed.

Create HintDb quiet.
#[local] Hint Resolve USBDriver_get_silent USBDriver_put_silent USBDriver_init_silent
  pump_get_silent pump_put_silent node_get_silent node_put_silent : quiet.

(** Proves that a computation adds no event of kind [f], when none of the
    calls it is made of does. *)
Ltac quiet_step :=
  lazymatch goal with
  | |- at_most _ 0 (bind _ _) => apply at_most_bind0; [| intros ?]
  | |- at_most _ 0 (try_except _ _ _) => apply at_most_try_except0; [| intros ?]
  | |- at_most _ 0 (ret _) => apply at_most_ret
  | |- at_most _ 0 (raise _) => apply at_most_raise
  | |- at_most _ 0 (ask _) => apply at_most_ask
  | |- at_most _ 0 (assert _) => apply at_most_assert
  | |- at_most _ 0 (call _ _) => apply at_most_call; reflexivity
  | |- at_most _ 0 (external _ _) => apply at_most_external; reflexivity
  | |- at_most _ 0 (emit _) => apply at_most_emit; reflexivity
  | |- at_most _ 0 (log _ _) => apply at_most_log; reflexivity
  | |- at_most _ 0 (match ?x with _ => _ end) => destruct x
  | |- at_most _ 0 (λ _ st, (_, set_pumps _ st)) => by apply at_most_silent
  | |- at_most _ 0 (λ _ st, (_, set_nodes _ st)) => by apply at_most_silent
  | |- at_most _ 0 (λ _ st, (_, set_scanners _ st)) => by apply at_most_silent
  | |- at_most _ 0 _ => solve [eauto with quiet]
  end.
Ltac quiet := intros; repeat quiet_step.

(** ** Stepping through a run *)

Lemma run_driver_get W st self this :
  drivers st !! self = Some this → USBDriver.get self W st = (Ok this, st).
Proof. unfold USBDriver.get. by intros ->. Qed.

Lemma external_cases ev answer W st :
  let st1 := set_trace (λ tr, tr ++ [ev]) st in
  external ev answer W st = (Ok tt, st1) ∨ ∃ e, external ev answer W st = (Raise e, st1).
Proof.
  unfold external, call. destruct (answer W (trace st)) as [e|]; cbn; eauto.
Qed.

(** The guarded [reset()] of [open()]: it changes no object, and it
    returns whenever the only failure is a reset the backend lacks. *)
Lemma guarded_reset_cases d W st :
  let m := try_except (external (EDevReset d) (λ W tr, dev_reset W tr d))
             is_NotImplementedError
             (λ _, log WARNING "Could not reset the device, not implemented in usb backend") in
  ∃ st1, drivers st1 = drivers st
    ∧ (m W st = (Ok tt, st1)
       ∨ ∃ e, dev_reset W (trace st) d = Some e ∧ is_NotImplementedError e = false
              ∧ m W st = (Raise e, st1)).
Proof.
  unfold try_except, external, call, log, emit. cbn.
  destruct (dev_reset W (trace st) d) as [e|] eqn:He; cbn.
  - destruct (is_NotImplementedError e) eqn:Hni.
    + eexists. split; [| left; reflexivity]. reflexivity.
    + eexists. split; [| right; eauto]. reflexivity.
  - eexists. split; [| left; reflexivity]. reflexivity.
Qed.

Ltac run_prim :=
  first
    [ reflexivity
    | apply run_driver_get; cbn;
      first [ eassumption | apply lookup_insert_eq ] ].

(** One step of a run whose first call returns. *)
Ltac step := erewrite bind_Ok by run_prim.

(** A call into the world: either it raises, and so does the run, or the
    run goes on. *)
Ltac step_external :=
  lazymatch goal with
  | |- context [bind (external ?ev ?ans) ?k ?W ?s] =>
      let H := fresh "Hcall" in
      destruct (external_cases ev ans W s) as [H | [? H]];
      [ rewrite (bind_Ok _ _ _ _ _ _ H) | rewrite (bind_Raise _ _ _ _ _ _ H) ];
      clear H
  end.

Ltac step_reset Hself :=
  lazymatch goal with
  | |- context [bind (try_except (external (EDevReset ?d) _) _ _) ?k ?W ?s] =>
      let st1 := fresh "st" in
      let Hd := fresh "Hd" in
      let Hrun := fresh "Hrun" in
      destruct (guarded_reset_cases d W s) as (st1 & Hd & [Hrun | (? & ? & ? & Hrun)]);
      cbn in Hd; rewrite <- Hd in Hself;
      [ rewrite (bind_Ok _ _ _ _ _ _ Hrun) | rewrite (bind_Raise _ _ _ _ _ _ Hrun) ];
      clear Hrun Hd
  end.

(** ** The patched USB driver *)

(** C10. [USBDriver.find] returns [True] for every set of keyword
    arguments and every driver, touching neither the store nor the outside
    world: no search takes place.  The device is the one handed to the
    constructor, which records it with both endpoints unset and makes no
    call either. *)
Theorem find_always_True {V} (W : world) (st : state) (self : ref) (kwargs : gmap string V)
    (device : Device) :
  USBDriver.find self kwargs W st = (Ok true, st)
  ∧ ∃ r st',
      USBDriver.__init__ device W st = (Ok r, st')
      ∧ drivers st' !! r
        = Some {| USBDriver_.dev := device; USBDriver_._in := None;
                  USBDriver_._out := None |}
      ∧ trace st' = trace st.
Proof.
  split; [reflexivity |].
  eexists _, _. split; [reflexivity |]. split; [| reflexivity].
  cbn. apply lookup_insert_eq.
Qed.

(** C4, as amended.  [USBDriver.close()] never raises, whatever state the
    driver is in (never opened, opened, or left halfway by an [open()] that
    raised), and it is idempotent on the store; but it releases nothing: it
    writes one debug line saying that the close is skipped and leaves every
    object, the driver's endpoints included, as it found them. *)
Theorem close_skips_release (W : world) (st : state) (self : ref) :
  let after_one := (USBDriver.close self W st).2 in
  let after_two := (USBDriver.close self W after_one).2 in
  (USBDriver.close self W st).1 = Ok tt
  ∧ (USBDriver.close self W after_one).1 = Ok tt
  ∧ drivers after_one = drivers st
  ∧ trace after_one
    = trace st ++ [ELog DEBUG "Skipping USB Device Close: not supported in Monkey Patch"]
  ∧ drivers after_two = drivers after_one
  ∧ (let after_open := (USBDriver.open self W st).2 in
     (USBDriver.close self W after_open).1 = Ok tt
     ∧ drivers (USBDriver.close self W after_open).2 = drivers after_open).
Proof. repeat split. Qed.

(** C4, counterexample.  On the usual stick, opened without any failure,
    [close()] leaves the driver holding both endpoints and makes no call on
    the device: nothing is released. *)
Lemma close_releases_nothing :
  let st := opened_driver ant_stick in
  let st' := (USBDriver.close 0%nat quiet_world st).2 in
  drivers st' !! 0%nat
  = Some {| USBDriver_.dev := ant_stick; USBDriver_._in := Some bulk_in;
            USBDriver_._out := Some bulk_out |}
  ∧ trace st'
    = trace st ++ [ELog DEBUG "Skipping USB Device Close: not supported in Monkey Patch"]
  ∧ ¬ spec_released st' 0%nat.
Proof.
  assert (H : drivers (USBDriver.close 0%nat quiet_world (opened_driver ant_stick)).2
              !! 0%nat
              = Some {| USBDriver_.dev := ant_stick; USBDriver_._in := Some bulk_in;
                        USBDriver_._out := Some bulk_out |})
    by (vm_compute; reflexivity).
  cbv zeta. split; [exact H |]. split; [reflexivity |].
  intros (this & Hthis & Hin & _).
  assert (Heq : Some this
                = Some {| USBDriver_.dev := ant_stick; USBDriver_._in := Some bulk_in;
                          USBDriver_._out := Some bulk_out |})
    by (rewrite <- Hthis; exact H).
  injection Heq as ->. discriminate Hin.
Qed.

(** C3, as amended.  When the device answers and interface 0, alternate
    setting 0 has an endpoint of each direction, [open()] returns, and the
    driver then holds the first OUT endpoint and the first IN endpoint of
    that interface, in descriptor order, whatever their transfer type: the
    transfer type is never looked at. *)
Theorem open_selects_first_endpoints (W : world) (st : state) (self : ref)
    (this : USBDriver_.t) (intf : Interface) :
  drivers st !! self = Some this →
  device_answers W (USBDriver_.dev this) →
  interface00 (USBDriver_.dev this) = Some intf →
  is_Some (first_out intf) →
  is_Some (first_in intf) →
  (USBDriver.open self W st).1 = Ok tt
  ∧ drivers (USBDriver.open self W st).2 !! self
    = Some {| USBDriver_.dev := USBDriver_.dev this;
              USBDriver_._in := first_in intf;
              USBDriver_._out := first_out intf |}.
Proof.
  intros Hself (Hcfg & Hreset & Hact) Hintf [eo Ho] [ei Hi].
  unfold interface00 in Hintf.
  rewrite Ho, Hi. unfold first_out, is_out in Ho. unfold first_in, is_in in Hi.
  unfold USBDriver.open. do 4 step.
  erewrite bind_Ok by (unfold external, call; rewrite Hcfg; reflexivity).
  step_reset Hself.
  2:{ exfalso. match goal with H : dev_reset _ _ _ = Some _ |- _ => apply Hreset in H end.
      congruence. }
  step. destruct (is_windows W); step.
  all: erewrite bind_Ok by (unfold external, call; rewrite Hact; reflexivity).
  all: rewrite Hintf; do 4 step; cbn; rewrite Ho; repeat step.
  all: cbn; rewrite Hi; repeat step.
  all: cbn; rewrite lookup_insert_eq; split; reflexivity.
Qed.

Lemma quiet_world_answers d : device_answers quiet_world d.
Proof. repeat split; intros; discriminate. Qed.

Lemma open_selects_first_endpoints_witness :
  drivers (fresh_driver ant_stick) !! 0%nat
  = Some {| USBDriver_.dev := ant_stick; USBDriver_._in := None; USBDriver_._out := None |}
  ∧ device_answers quiet_world ant_stick
  ∧ interface00 ant_stick
    = Some {| bInterfaceNumber := 0; bAlternateSetting := 0;
              endpoints := [bulk_in; bulk_out] |}
  ∧ (USBDriver.open 0%nat quiet_world (fresh_driver ant_stick)).1 = Ok tt
  ∧ drivers (USBDriver.open 0%nat quiet_world (fresh_driver ant_stick)).2 !! 0%nat
    = Some {| USBDriver_.dev := ant_stick; USBDriver_._in := Some bulk_in;
              USBDriver_._out := Some bulk_out |}.
Proof.
  split; [vm_compute; reflexivity |].
  split; [apply quiet_world_answers |].
  split; [reflexivity |].
  apply (open_selects_first_endpoints quiet_world (fresh_driver ant_stick) 0%nat
           {| USBDriver_.dev := ant_stick; USBDriver_._in := None; USBDriver_._out := None |}
           {| bInterfaceNumber := 0; bAlternateSetting := 0;
              endpoints := [bulk_in; bulk_out] |}).
  - vm_compute; reflexivity.
  - apply quiet_world_answers.
  - reflexivity.
  - exists bulk_out. reflexivity.
  - exists bulk_in. reflexivity.
Defined.

(** C3, counterexample.  Interface (0,0) of [interrupt_first] has an IN
    and two OUT endpoints, the first OUT one of interrupt type.  [open()]
    returns and selects that interrupt endpoint, which is neither of bulk
    type nor the first bulk OUT endpoint. *)
Lemma open_selects_non_bulk :
  let intf := {| bInterfaceNumber := 0; bAlternateSetting := 0;
                 endpoints := [intr_out; bulk_out2; bulk_in] |} in
  let run := USBDriver.open 0%nat quiet_world (fresh_driver interrupt_first) in
  interface00 interrupt_first = Some intf
  ∧ is_Some (first_in intf) ∧ is_Some (first_out intf)
  ∧ run.1 = Ok tt
  ∧ (USBDriver_._out <$> drivers run.2 !! 0%nat) = Some (Some intr_out)
  ∧ is_bulk intr_out = false
  ∧ spec_first_bulk_out intf = Some bulk_out2
  ∧ Some intr_out ≠ spec_first_bulk_out intf.
Proof.
  cbv zeta. split; [reflexivity |].
  split; [by exists bulk_in |]. split; [by exists intr_out |].
  split; [vm_compute; reflexivity |]. split; [vm_compute; reflexivity |].
  split; [reflexivity |]. split; [reflexivity |]. discriminate.
Qed.

(** C2, as amended.  When interface 0, alternate setting 0 has no OUT
    endpoint or no IN endpoint (of any transfer type), [open()] does not
    return: it raises, whatever the outside world does. *)
Theorem open_missing_endpoint_raises (W : world) (st : state) (self : ref)
    (this : USBDriver_.t) (intf : Interface) :
  drivers st !! self = Some this →
  interface00 (USBDriver_.dev this) = Some intf →
  first_out intf = None ∨ first_in intf = None →
  ∃ e, (USBDriver.open self W st).1 = Raise e.
Proof.
  intros Hself Hintf Hlack. unfold interface00 in Hintf.
  unfold first_out, is_out, first_in, is_in in Hlack.
  enough (H : is_Ok (USBDriver.open self W st).1 = false).
  { destruct (USBDriver.open self W st).1 as [[]|e]; [discriminate | eauto]. }
  unfold USBDriver.open. do 4 step.
  step_external; [| reflexivity].
  step_reset Hself; [| reflexivity].
  step. destruct (is_windows W); step.
  all: (step_external; [| reflexivity]).
  all: rewrite Hintf; do 4 step; cbn.
  all: destruct (find_descriptor (endpoints intf)
         (λ e, (endpoint_direction (bEndpointAddress e) =? ENDPOINT_OUT)%Z))
         as [eo|] eqn:Ho; [| reflexivity].
  all: destruct Hlack as [Hlack | Hlack]; [discriminate |].
  all: repeat step; cbn; rewrite Hlack; reflexivity.
Qed.

(** What it raises when the device answers: the [AttributeError] of the
    debug line that reads [bEndpointAddress] off the endpoint just looked
    up.  The closing [assert] is never reached with an endpoint missing. *)
Lemma open_missing_endpoint_AttributeError (W : world) (st : state) (self : ref)
    (this : USBDriver_.t) (intf : Interface) :
  drivers st !! self = Some this →
  device_answers W (USBDriver_.dev this) →
  interface00 (USBDriver_.dev this) = Some intf →
  first_out intf = None ∨ first_in intf = None →
  (USBDriver.open self W st).1
  = Raise (Exn AttributeError "'NoneType' object has no attribute 'bEndpointAddress'" None).
Proof.
  intros Hself (Hcfg & Hreset & Hact) Hintf Hlack. unfold interface00 in Hintf.
  unfold first_out, is_out, first_in, is_in in Hlack.
  unfold USBDriver.open. do 4 step.
  erewrite bind_Ok by (unfold external, call; rewrite Hcfg; reflexivity).
  step_reset Hself.
  2:{ exfalso. match goal with H : dev_reset _ _ _ = Some _ |- _ => apply Hreset in H end.
      congruence. }
  step. destruct (is_windows W); step.
  all: erewrite bind_Ok by (unfold external, call; rewrite Hact; reflexivity).
  all: rewrite Hintf; do 4 step; cbn.
  all: destruct (find_descriptor (endpoints intf)
         (λ e, (endpoint_direction (bEndpointAddress e) =? ENDPOINT_OUT)%Z))
         as [eo|] eqn:Ho; [| reflexivity].
  all: destruct Hlack as [Hlack | Hlack]; [discriminate |].
  all: repeat step; cbn; rewrite Hlack; reflexivity.
Qed.

Lemma open_missing_endpoint_raises_witness :
  drivers (fresh_driver no_out) !! 0%nat
  = Some {| USBDriver_.dev := no_out; USBDriver_._in := None; USBDriver_._out := None |}
  ∧ interface00 no_out
    = Some {| bInterfaceNumber := 0; bAlternateSetting := 0; endpoints := [bulk_in] |}
  ∧ first_out {| bInterfaceNumber := 0; bAlternateSetting := 0; endpoints := [bulk_in] |}
    = None
  ∧ ∃ e, (USBDriver.open 0%nat quiet_world (fresh_driver no_out)).1 = Raise e.
Proof.
  split; [vm_compute; reflexivity |]. split; [reflexivity |]. split; [reflexivity |].
  apply (open_missing_endpoint_raises quiet_world (fresh_driver no_out) 0%nat
           {| USBDriver_.dev := no_out; USBDriver_._in := None; USBDriver_._out := None |}
           {| bInterfaceNumber := 0; bAlternateSetting := 0; endpoints := [bulk_in] |}).
  - vm_compute; reflexivity.
  - reflexivity.
  - left. reflexivity.
Defined.

(** C2, counterexample.  Interface (0,0) of [interrupt_only] has no bulk
    endpoint in either direction, and [open()] returns all the same.  On
    [no_out], which has no OUT endpoint, [open()] raises, but what it raises
    is the [AttributeError] of reading [bEndpointAddress] off [None]; no
    error called EndpointNotFound exists. *)
Lemma open_not_EndpointNotFound :
  let intf := {| bInterfaceNumber := 0; bAlternateSetting := 0;
                 endpoints := [intr_in; intr_out] |} in
  (interface00 interrupt_only = Some intf
   ∧ spec_first_bulk_in intf = None ∧ spec_first_bulk_out intf = None
   ∧ (USBDriver.open 0%nat quiet_world (fresh_driver interrupt_only)).1 = Ok tt)
  ∧ ∃ e, (USBDriver.open 0%nat quiet_world (fresh_driver no_out)).1 = Raise e
         ∧ exn_class e = AttributeError
         ∧ class_name (exn_class e) ≠ "EndpointNotFound".
Proof.
  cbv zeta. split.
  - split; [reflexivity |]. split; [reflexivity |]. split; [reflexivity |].
    vm_compute; reflexivity.
  - eexists. split; [vm_compute; reflexivity |]. split; [reflexivity | discriminate].
Qed.

(** ** The device pump *)

(** [open()] reads and writes the driver only. *)
Lemma open_keeps_pumps self W st : pumps (USBDriver.open self W st).2 = pumps st.
Proof.
  unfold USBDriver.open, USBDriver.get, USBDriver.put, USBDriver.getattr_bEndpointAddress,
    log, emit, external, call, ask, try_except, bind, ret, raise, assert, raises.
  repeat (case_match; simplify_eq/=; try reflexivity).
Qed.

Lemma open_no_thread self : at_most is_thread_start 0 (USBDriver.open self).
Proof. unfold USBDriver.open, USBDriver.getattr_bEndpointAddress. quiet. Qed.

Lemma Driver_open_keeps_pumps d W st : pumps (Driver_open d W st).2 = pumps st.
Proof.
  destruct d as [r|k]; [| reflexivity].
  unfold Driver_open. erewrite bind_Ok by reflexivity. by rewrite open_keeps_pumps.
Qed.

Lemma Driver_open_recorded d W st :
  ∃ evs, trace (Driver_open d W st).2 = trace st ++ EDriverOpen d :: evs
         ∧ occurrences is_thread_start evs = 0%nat.
Proof.
  destruct d as [r|k].
  - unfold Driver_open. erewrite bind_Ok by reflexivity.
    destruct (open_no_thread r W (set_trace (λ tr, tr ++ [EDriverOpen (Patched r)]) st))
      as (evs & Htr & Hn).
    exists evs. rewrite Htr. cbn. rewrite <- app_assoc. split; [done | lia].
  - exists []. split; reflexivity.
Qed.

(** C6.  The pump's constructor marks the pump as running and opens the
    driver first.  If the open raises, the constructor raises the same
    exception there and then, and no thread has been started.  If the open
    returns, the constructor starts exactly one thread, the worker named
    ["openant.base"], the pump is running and holds that thread, and what
    remains is the system reset, whose outcome is the constructor's. *)
Theorem pump_init_spawns_one_worker (W : world) (st : state) (d : driver_obj) :
  let self := fresh (dom (pumps st)) in
  let new := {| AntTransceiverDevice_._driver := d;
                AntTransceiverDevice_._message_queue := [];
                AntTransceiverDevice_._events := [];
                AntTransceiverDevice_._buffer := [];
                AntTransceiverDevice_._burst_data := [];
                AntTransceiverDevice_._last_data := [];
                AntTransceiverDevice_._running := true;
                AntTransceiverDevice_._worker_thread := None |} in
  let st0 := set_pumps (insert self new) st in
  let th := {| target := Ant_worker self; name := "openant.base" |} in
  let run := AntTransceiverDevice.__init__ d W st in
  (∀ e st1, Driver_open d W st0 = (Raise e, st1) →
     run = (Raise e, st1)
     ∧ ∃ evs, trace run.2 = trace st ++ EDriverOpen d :: evs
              ∧ occurrences is_thread_start (EDriverOpen d :: evs) = 0%nat)
  ∧ (∀ st1, Driver_open d W st0 = (Ok tt, st1) →
     (∃ evs, trace run.2 = trace st ++ EDriverOpen d :: evs
             ∧ occurrences is_thread_start (EDriverOpen d :: evs) = 1%nat)
     ∧ trace run.2 = trace st1 ++ [EThreadStart th; EAntResetSystem self]
     ∧ (∃ this, pumps run.2 !! self = Some this
                ∧ AntTransceiverDevice_._running this = true
                ∧ AntTransceiverDevice_._worker_thread this = Some th)
     ∧ run.1 = match ant_reset_system W (trace st1 ++ [EThreadStart th]) self with
               | None => Ok self
               | Some e => Raise e
               end).
Proof.
  intros self new st0 th run.
  assert (Hrun : run = bind (Driver_open d)
            (λ _, this <- AntTransceiverDevice.get self ;;
                  AntTransceiverDevice.put self (AntTransceiverDevice.set_worker_thread th this) ;;
                  emit (EThreadStart th) ;;
                  AntTransceiverDevice.reset_system self ;; ret self) W st0).
  { unfold run, AntTransceiverDevice.__init__.
    erewrite bind_Ok by reflexivity.
    erewrite bind_Ok
      by (unfold AntTransceiverDevice.get; cbn; rewrite lookup_insert_eq; reflexivity).
    reflexivity. }
  destruct (Driver_open_recorded d W st0) as (evs & Htr & Hn).
  pose proof (Driver_open_keeps_pumps d W st0) as Hp.
  split.
  - intros e st1 Hopen. rewrite Hopen in Htr, Hp. cbn in Htr, Hp.
    rewrite Hrun. erewrite bind_Raise by exact Hopen. split; [reflexivity |].
    exists evs. split; [exact Htr |]. exact Hn.
  - intros st1 Hopen. rewrite Hopen in Htr, Hp. cbn in Htr, Hp.
    assert (Hget : AntTransceiverDevice.get self W st1 = (Ok new, st1)).
    { unfold AntTransceiverDevice.get. rewrite Hp. by rewrite lookup_insert_eq. }
    rewrite Hrun. erewrite bind_Ok by exact Hopen.
    erewrite bind_Ok by exact Hget.
    do 2 (erewrite bind_Ok by reflexivity).
    unfold AntTransceiverDevice.reset_system, external, call, bind, ret, raises. cbn.
    assert (Hone : occurrences is_thread_start
               (EDriverOpen d :: evs ++ [EThreadStart th; EAntResetSystem self]) = 1%nat).
    { change (EDriverOpen d :: evs ++ [EThreadStart th; EAntResetSystem self])
        with ([EDriverOpen d] ++ evs ++ [EThreadStart th; EAntResetSystem self]).
      rewrite !occurrences_app, Hn. reflexivity. }
    destruct (ant_reset_system W (trace st1 ++ [EThreadStart th]) self) as [e|]; cbn.
    all: rewrite Htr, <- !app_assoc; cbn - [occurrences].
    all: (split; [eexists; split; [reflexivity | exact Hone] |]).
    all: (split; [reflexivity |]).
    all: (split; [| reflexivity]).
    all: rewrite lookup_insert_eq; by eexists.
Qed.

Lemma pump_init_spawns_one_worker_witness :
  let new d := {| AntTransceiverDevice_._driver := d;
                  AntTransceiverDevice_._message_queue := [];
                  AntTransceiverDevice_._events := [];
                  AntTransceiverDevice_._buffer := [];
                  AntTransceiverDevice_._burst_data := [];
                  AntTransceiverDevice_._last_data := [];
                  AntTransceiverDevice_._running := true;
                  AntTransceiverDevice_._worker_thread := None |} in
  let good0 := set_pumps (insert 0%nat (new (Patched 0%nat))) (fresh_driver ant_stick) in
  let bad0 := set_pumps (insert 0%nat (new (Foreign 1))) empty_state in
  let good := AntTransceiverDevice.__init__ (Patched 0%nat) quiet_world
                (fresh_driver ant_stick) in
  let bad := AntTransceiverDevice.__init__ (Foreign 1) failing_world empty_state in
  (Driver_open (Patched 0%nat) quiet_world good0
   = (Ok tt, (Driver_open (Patched 0%nat) quiet_world good0).2)
   ∧ good.1 = Ok 0%nat
   ∧ occurrences is_thread_start (trace good.2) = 1%nat
   ∧ ∃ this, pumps good.2 !! 0%nat = Some this
             ∧ AntTransceiverDevice_._running this = true)
  ∧ (Driver_open (Foreign 1) failing_world bad0
     = (Raise (Exn USBError "no such device" None),
        (Driver_open (Foreign 1) failing_world bad0).2)
     ∧ bad.1 = Raise (Exn USBError "no such device" None)
     ∧ occurrences is_thread_start (trace bad.2) = 0%nat).
Proof.
  cbv zeta. split.
  - assert (Hopen : Driver_open (Patched 0%nat) quiet_world
              (set_pumps (insert (fresh (dom (pumps (fresh_driver ant_stick))))
                 {| AntTransceiverDevice_._driver := Patched 0%nat;
                    AntTransceiverDevice_._message_queue := [];
                    AntTransceiverDevice_._events := [];
                    AntTransceiverDevice_._buffer := [];
                    AntTransceiverDevice_._burst_data := [];
                    AntTransceiverDevice_._last_data := [];
                    AntTransceiverDevice_._running := true;
                    AntTransceiverDevice_._worker_thread := None |})
                 (fresh_driver ant_stick))
            = (Ok tt, (Driver_open (Patched 0%nat) quiet_world
                 (set_pumps (insert 0%nat
                    {| AntTransceiverDevice_._driver := Patched 0%nat;
                       AntTransceiverDevice_._message_queue := [];
                       AntTransceiverDevice_._events := [];
                       AntTransceiverDevice_._buffer := [];
                       AntTransceiverDevice_._burst_data := [];
                       AntTransceiverDevice_._last_data := [];
                       AntTransceiverDevice_._running := true;
                       AntTransceiverDevice_._worker_thread := None |})
                    (fresh_driver ant_stick))).2))
      by (vm_compute; reflexivity).
    split; [exact Hopen |].
    destruct (pump_init_spawns_one_worker quiet_world (fresh_driver ant_stick) (Patched 0%nat))
      as [_ Hok].
    destruct (Hok _ Hopen) as ((evs & Htr & Hn) & _ & (this & Hthis & Hrunning & _) & Hres).
    split; [exact Hres |]. split; [| by exists this].
    rewrite Htr. exact Hn.
  - assert (Hopen : Driver_open (Foreign 1) failing_world
              (set_pumps (insert (fresh (dom (pumps empty_state)))
                 {| AntTransceiverDevice_._driver := Foreign 1;
                    AntTransceiverDevice_._message_queue := [];
                    AntTransceiverDevice_._events := [];
                    AntTransceiverDevice_._buffer := [];
                    AntTransceiverDevice_._burst_data := [];
                    AntTransceiverDevice_._last_data := [];
                    AntTransceiverDevice_._running := true;
                    AntTransceiverDevice_._worker_thread := None |}) empty_state)
            = (Raise (Exn USBError "no such device" None),
               (Driver_open (Foreign 1) failing_world
                 (set_pumps (insert 0%nat
                    {| AntTransceiverDevice_._driver := Foreign 1;
                       AntTransceiverDevice_._message_queue := [];
                       AntTransceiverDevice_._events := [];
                       AntTransceiverDevice_._buffer := [];
                       AntTransceiverDevice_._burst_data := [];
                       AntTransceiverDevice_._last_data := [];
                       AntTransceiverDevice_._running := true;
                       AntTransceiverDevice_._worker_thread := None |}) empty_state)).2))
      by (vm_compute; reflexivity).
    split; [exact Hopen |].
    destruct (pump_init_spawns_one_worker failing_world empty_state (Foreign 1))
      as [Hbad _].
    destruct (Hbad _ _ Hopen) as (Hres & evs & Htr & Hn).
    split; [by rewrite Hres |]. rewrite Htr. exact Hn.
Defined.

(** ** The node *)

(** Every node comes out of its constructor with [max_networks] and
    [max_channels] equal to 8, and the one other operation the class
    defines, the [transceiver] property, hands back the pump and leaves the
    store as it is.  This says nothing of the methods the class inherits
    from the library's [Node]: their code is not part of the repository,
    what they assign on a node is not tracked in the store, and the comment
    above these fields in the constructor announces that the values are to
    be replaced by the device's answer. *)
Theorem node_bounds_eight (W : world) (st : state) (pump : ref) :
  ∃ self st' this,
    AntTransceiver.__init__ pump W st = (Ok self, st')
    ∧ nodes st' !! self = Some this
    ∧ AntTransceiver_.max_networks this = 8
    ∧ AntTransceiver_.max_channels this = 8
    ∧ AntTransceiver.transceiver self W st' = (Ok pump, st').
Proof.
  unfold AntTransceiver.__init__, AntTransceiver.transceiver, AntTransceiver.get,
    AntTransceiver.put, bind, ret, emit. cbn.
  rewrite lookup_insert_eq. cbn.
  eexists _, _, _. split; [reflexivity |]. cbn.
  rewrite lookup_insert_eq. repeat split.
Qed.

(** ** Session teardown and setup *)

Lemma Driver_close_recorded d W st :
  ∃ evs, trace (Driver_close d W st).2 = trace st ++ EDriverClose d :: evs.
Proof.
  destruct d as [r|k]; cbn.
  - eexists. rewrite <- app_assoc. reflexivity.
  - eexists. reflexivity.
Qed.

(** C1, as amended.  With a driver and a transceiver both given and
    [transceiver.stop()] raising an [Exception] [e], [teardown_transceiver]
    logs the failure and goes on to call [usb_driver.close()], after the
    stop; it then raises to its caller: a [RuntimeError] whose message is
    the stop failure followed, when [close()] raised an [Exception] too, by
    the close failure (which is logged as well).  Nothing is swallowed: the
    callers are the ones that catch and log. *)
Theorem teardown_transceiver_stop_raises (W : world) (st : state) (d : driver_obj)
    (t : ref) (e : exn) :
  node_stop W (trace st) t = Some e →
  is_Exception e = true →
  let st1 := set_trace (λ tr, tr ++ [ELog DEBUG "Failed to stop the ANT+ Node"])
               (set_trace (λ tr, tr ++ [ENodeStop t]) st) in
  let stop_failure := "Failed to stop the ANT+ Node: " +:+ exn_msg e in
  (∃ evs, trace (Driver_close d W st1).2 = trace st1 ++ EDriverClose d :: evs)
  ∧ teardown_transceiver (Some d) (Some t) W st
    = match Driver_close d W st1 with
      | (Ok _, st2) => (Raise (Exn RuntimeError stop_failure None), st2)
      | (Raise e2, st2) =>
          if is_Exception e2 then
            (Raise (Exn RuntimeError
                      (stop_failure +:+ "Failed to close the USB Device: " +:+ exn_msg e2)
                      None),
             set_trace (λ tr, tr ++ [ELog DEBUG "Failed to close the USB Device"]) st2)
          else (Raise e2, st2)
      end.
Proof.
  intros Hstop Hexc st1 stop_failure. split; [apply Driver_close_recorded |].
  unfold teardown_transceiver.
  erewrite bind_Ok.
  2:{ unfold try_except, AntTransceiver.stop, external, call, bind.
      rewrite Hstop. cbn. rewrite Hexc. reflexivity. }
  fold st1. unfold bind at 1. unfold try_except, bind at 1.
  destruct (Driver_close d W st1) as [[[]|e2] st2]; cbn; [reflexivity |].
  destruct (is_Exception e2); reflexivity.
Qed.

(** With the patched driver, whose [close()] cannot fail, the error
    carries the stop failure alone. *)
Lemma teardown_transceiver_patched (W : world) (st : state) (r t : ref) (e : exn) :
  node_stop W (trace st) t = Some e →
  is_Exception e = true →
  teardown_transceiver (Some (Patched r)) (Some t) W st
  = (Raise (Exn RuntimeError ("Failed to stop the ANT+ Node: " +:+ exn_msg e) None),
     set_trace (λ tr, tr ++ [ENodeStop t; ELog DEBUG "Failed to stop the ANT+ Node";
                             EDriverClose (Patched r);
                             ELog DEBUG "Skipping USB Device Close: not supported in Monkey Patch"])
       st).
Proof.
  intros Hstop Hexc. unfold teardown_transceiver.
  erewrite bind_Ok.
  2:{ unfold try_except, AntTransceiver.stop, external, call, bind.
      rewrite Hstop. cbn. rewrite Hexc. reflexivity. }
  erewrite bind_Ok by reflexivity.
  cbn. unfold set_trace. cbn. rewrite <- !app_assoc. reflexivity.
Qed.

Lemma teardown_transceiver_stop_raises_witness :
  let e := Exn RuntimeError "worker still running" None in
  node_stop failing_world (trace empty_state) 0%nat = Some e
  ∧ is_Exception e = true
  ∧ teardown_transceiver (Some (Foreign 3)) (Some 0%nat) failing_world empty_state
    = (Raise (Exn RuntimeError
                ("Failed to stop the ANT+ Node: worker still running"
                 +:+ "Failed to close the USB Device: gone") None),
       {| drivers := ∅; pumps := ∅; nodes := ∅; scanners := ∅;
          trace := [ENodeStop 0%nat; ELog DEBUG "Failed to stop the ANT+ Node";
                    EDriverClose (Foreign 3);
                    ELog DEBUG "Failed to close the USB Device"] |}).
Proof.
  cbv zeta. split; [reflexivity |]. split; [reflexivity |].
  destruct (teardown_transceiver_stop_raises failing_world empty_state (Foreign 3) 0%nat
              (Exn RuntimeError "worker still running" None) eq_refl eq_refl)
    as [_ Hrun].
  etrans; [exact Hrun | reflexivity].
Defined.

(** C1, counterexample.  The node's [stop()] raises; the patched driver
    closes without complaint; and [teardown_transceiver] raises a
    [RuntimeError] to its caller instead of returning. *)
Lemma teardown_transceiver_propagates :
  let st := opened_driver ant_stick in
  let run := teardown_transceiver (Some (Patched 0%nat)) (Some 0%nat) failing_world st in
  node_stop failing_world (trace st) 0%nat
  = Some (Exn RuntimeError "worker still running" None)
  ∧ run.1 = Raise (Exn RuntimeError
                     "Failed to stop the ANT+ Node: worker still running" None)
  ∧ run.1 ≠ Ok tt.
Proof.
  cbv zeta. split; [reflexivity |].
  assert (H : (teardown_transceiver (Some (Patched 0%nat)) (Some 0%nat) failing_world
                 (opened_driver ant_stick)).1
              = Raise (Exn RuntimeError
                         "Failed to stop the ANT+ Node: worker still running" None))
    by (vm_compute; reflexivity).
  split; [exact H |]. rewrite H. discriminate.
Qed.

(** *** Setup *)

Lemma open_no_key self : at_most is_set_network_key 0 (USBDriver.open self).
Proof. unfold USBDriver.open, USBDriver.getattr_bEndpointAddress. quiet. Qed.

Lemma Driver_open_no_key d : at_most is_set_network_key 0 (Driver_open d).
Proof. unfold Driver_open. quiet. apply open_no_key. Qed.

Lemma Driver_close_no_key d : at_most is_set_network_key 0 (Driver_close d).
Proof. unfold Driver_close, USBDriver.close. quiet. Qed.

Lemma pump_init_no_key d : at_most is_set_network_key 0 (AntTransceiverDevice.__init__ d).
Proof.
  unfold AntTransceiverDevice.__init__, AntTransceiverDevice.reset_system. quiet.
  apply Driver_open_no_key.
Qed.

Lemma node_init_no_key pump : at_most is_set_network_key 0 (AntTransceiver.__init__ pump).
Proof. unfold AntTransceiver.__init__. quiet. Qed.

Lemma teardown_transceiver_no_key usb_driver transceiver :
  at_most is_set_network_key 0 (teardown_transceiver usb_driver transceiver).
Proof.
  unfold teardown_transceiver, AntTransceiver.stop. quiet; apply Driver_close_no_key.
Qed.

Lemma setup_transceiver_failed_no_key {A} usb_driver transceiver e :
  at_most is_set_network_key 0 (setup_transceiver_failed (A:=A) usb_driver transceiver e).
Proof. unfold setup_transceiver_failed. quiet. apply teardown_transceiver_no_key. Qed.

#[local] Hint Resolve pump_init_no_key node_init_no_key setup_transceiver_failed_no_key
  : quiet.

(** The [except] clause of the setup never returns: it re-raises. *)
Lemma setup_transceiver_failed_raises {A} usb_driver transceiver e W st (a : A) st' :
  setup_transceiver_failed usb_driver transceiver e W st ≠ (Ok a, st').
Proof.
  unfold setup_transceiver_failed. intros Hrun.
  apply bind_Ok_inv in Hrun as (? & ? & _ & Hrun).
  apply bind_Ok_inv in Hrun as (? & ? & _ & Hrun).
  discriminate Hrun.
Qed.

Lemma bind_Ok_quiet {A B} f (m : M A) (k : A → M B) W st b st' :
  at_most f 0 m →
  bind m k W st = (Ok b, st') →
  ∃ a st1 evs, trace st1 = trace st ++ evs ∧ occurrences f evs = 0%nat
               ∧ k a W st1 = (Ok b, st').
Proof.
  intros Hm Hrun. apply bind_Ok_inv in Hrun as (a & st1 & Hm1 & Hk).
  destruct (Hm W st) as (evs & Htr & Hn). rewrite Hm1 in Htr.
  exists a, st1, evs. split; [exact Htr |]. split; [lia | exact Hk].
Qed.

(** C7.  No run of [setup_transceiver] sets a network key more than once.
    A run that returns the pair (driver, transceiver) has set it exactly
    once, on that transceiver, on slot 0 (which lies in 0..7), with the
    ANT+ key, and that call is the last thing the run did before
    returning. *)
Theorem setup_transceiver_sets_network_key_once (W : world) (st : state)
    (usb_id : USBIdentity) (libusb1_path : option string) :
  let run := setup_transceiver usb_id libusb1_path W st in
  (∃ evs, trace run.2 = trace st ++ evs
          ∧ (occurrences is_set_network_key evs ≤ 1)%nat)
  ∧ (∀ usb_driver transceiver,
       run.1 = Ok (usb_driver, transceiver) →
       ∃ before,
         trace run.2
         = trace st ++ before
             ++ [ENodeSetNetworkKey transceiver 0x00 (ANTPLUS_NETWORK_KEY W)]
         ∧ occurrences is_set_network_key before = 0%nat
         ∧ (0 ≤ 0x00 ≤ 7)%Z).
Proof.
  intros run. split.
  - assert (H : at_most is_set_network_key 1 (setup_transceiver usb_id libusb1_path)).
    { unfold setup_transceiver.
      do 9 (apply (at_most_bind _ _ _ 0 1); [by quiet | intros ?]).
      apply (at_most_bind _ _ _ 1 0); [| by quiet].
      apply (at_most_try_except _ _ _ _ 1 0); [| by quiet].
      apply (at_most_bind _ _ _ 0 1); [by quiet | intros ?].
      apply at_most_call_one. }
    apply H.
  - intros usb_driver transceiver Hres.
    destruct run as [r st'] eqn:Hrun. cbn in Hres. subst r. cbn. unfold run in Hrun.
    clear run. unfold setup_transceiver in Hrun.
    assert (Hext : ∀ s1 s2 evs,
      trace s2 = trace s1 ++ evs → occurrences is_set_network_key evs = 0%nat →
      (∃ before, trace st' = trace s2 ++ before
                   ++ [ENodeSetNetworkKey transceiver 0 (ANTPLUS_NETWORK_KEY W)]
                 ∧ occurrences is_set_network_key before = 0%nat ∧ (0 ≤ 0 ≤ 7)%Z) →
      ∃ before, trace st' = trace s1 ++ before
                  ++ [ENodeSetNetworkKey transceiver 0 (ANTPLUS_NETWORK_KEY W)]
                ∧ occurrences is_set_network_key before = 0%nat ∧ (0 ≤ 0 ≤ 7)%Z).
    { intros s1 s2 evs Htr Hn (before & Htr' & Hn' & Hslot).
      exists (evs ++ before). rewrite Htr', Htr, <- !app_assoc, occurrences_app, Hn, Hn'.
      done. }
    do 9 (apply bind_Ok_quiet with (f := is_set_network_key) in Hrun
            as (? & ? & ? & ? & ? & Hrun); [| by quiet];
          eapply Hext; [eassumption | eassumption |]).
    apply bind_Ok_inv in Hrun as ([] & s2 & Hkey & Hret).
    injection Hret as <- <- <-.
    apply try_except_Ok_inv in Hkey as [Hkey | (e & s3 & _ & _ & Hkey)].
    2:{ by apply setup_transceiver_failed_raises in Hkey. }
    apply bind_Ok_inv in Hkey as (key & s3 & Hask & Hkey).
    injection Hask as <- <-.
    unfold AntTransceiver.set_network_key, external, call in Hkey.
    injection Hkey as _ <-.
    exists []. cbn. split; [reflexivity |]. split; [reflexivity | lia].
Qed.

Lemma setup_transceiver_sets_network_key_once_witness :
  let usb_id := {| product := 0x1009; vendor := 0x0fcf |} in
  let run := setup_transceiver usb_id None quiet_world empty_state in
  run.1 = Ok (0%nat, 0%nat)
  ∧ ∃ before,
      trace run.2
      = trace empty_state ++ before
          ++ [ENodeSetNetworkKey 0%nat 0x00 (ANTPLUS_NETWORK_KEY quiet_world)]
      ∧ occurrences is_set_network_key before = 0%nat
      ∧ (0 ≤ 0x00 ≤ 7)%Z.
Proof.
  cbv zeta.
  assert (Hres : (setup_transceiver {| product := 0x1009; vendor := 0x0fcf |} None
                    quiet_world empty_state).1 = Ok (0%nat, 0%nat))
    by (vm_compute; reflexivity).
  split; [exact Hres |].
  exact (proj2 (setup_transceiver_sets_network_key_once quiet_world empty_state
                  {| product := 0x1009; vendor := 0x0fcf |} None) 0%nat 0%nat Hres).
Defined.

(** ** The scanner helpers *)

(** C9.  [setup_scanner] has no [return]: whenever it returns, it returns
    [None], whatever the transceiver and the callbacks, and it does return
    whenever the library's [Scanner] constructor does.  Handing that result
    to [teardown_scanner] does nothing and raises nothing. *)
Theorem setup_scanner_returns_None (W : world) (st : state) (transceiver : ref)
    (callbacks : gmap string callback) :
  (scanner_new W (trace st ++ [ELog DEBUG "Setting up ANT Client Scanner"]) transceiver
   = None →
   (setup_scanner transceiver callbacks W st).1 = Ok None)
  ∧ (∀ r st', setup_scanner transceiver callbacks W st = (Ok r, st') →
       r = None ∧ teardown_scanner r W st' = (Ok tt, st')).
Proof.
  split.
  - intros Hnew.
    unfold setup_scanner, set_on_found, set_on_update, Scanner.__init__, Scanner.get,
      Scanner.put, try_except, bind, log, emit, external, call, ret, raises.
    cbn. rewrite Hnew. cbn.
    destruct (callbacks !! "on_found"), (callbacks !! "on_update"); cbn;
      rewrite ?lookup_insert_eq; cbn; rewrite ?lookup_insert_eq; reflexivity.
  - intros r st' Hrun. unfold setup_scanner in Hrun.
    apply bind_Ok_inv in Hrun as (sc & st1 & _ & Hrun).
    apply bind_Ok_inv in Hrun as ([] & st2 & _ & Hrun).
    injection Hrun as <- <-. split; reflexivity.
Qed.

Lemma setup_scanner_returns_None_witness :
  scanner_new quiet_world (trace empty_state ++ [ELog DEBUG "Setting up ANT Client Scanner"])
    0%nat = None
  ∧ (setup_scanner 0%nat DEFAULT_SCANNER_CALLBACKS quiet_world empty_state).1 = Ok None
  ∧ teardown_scanner None quiet_world
      (setup_scanner 0%nat DEFAULT_SCANNER_CALLBACKS quiet_world empty_state).2
    = (Ok tt, (setup_scanner 0%nat DEFAULT_SCANNER_CALLBACKS quiet_world empty_state).2).
Proof.
  destruct (setup_scanner_returns_None quiet_world empty_state 0%nat
              DEFAULT_SCANNER_CALLBACKS) as [Hok Hret].
  split; [reflexivity |]. split; [exact (Hok eq_refl) |].
  apply (Hret None). vm_compute. reflexivity.
Defined.

(** ** Data schemas *)

(** C5.  [HeartRateSpec.from_data(d, m)] is the record tagged
    ["heart_rate"] whose metadata is [m] itself (so its [unit], [datum] and
    [diff] are those of [m]) and whose data are [d]'s rate, beat count and
    the two beat times. *)
Theorem from_data_fields (d : HeartRateData) (m : Metadata.t) :
  let r := HeartRateSpec.from_data d m in
  HeartRateSpec.kind r = "heart_rate"
  ∧ HeartRateSpec.metadata r = m
  ∧ Metadata.unit (Metadata.time (HeartRateSpec.metadata r)) = Metadata.unit (Metadata.time m)
  ∧ Metadata.datum (Metadata.time (HeartRateSpec.metadata r)) = Metadata.datum (Metadata.time m)
  ∧ Metadata.diff (Metadata.time (HeartRateSpec.metadata r)) = Metadata.diff (Metadata.time m)
  ∧ HeartRateSpec.data r
    = {| HeartRateSpec.bpm := heart_rate d;
         HeartRateSpec.beat := beat_count d;
         HeartRateSpec.time :=
           {| HeartRateSpec.cur := beat_time d;
              HeartRateSpec.prev := previous_heart_beat_time d |} |}.
Proof. repeat split. Qed.

(** * Further properties *)

(** ** More on [open()] *)

Lemma external_answer_cases ev answer W st :
  let st1 := set_trace (λ tr, tr ++ [ev]) st in
  (answer W (trace st) = None ∧ external ev answer W st = (Ok tt, st1))
  ∨ ∃ e, answer W (trace st) = Some e ∧ external ev answer W st = (Raise e, st1).
Proof.
  unfold external, call. destruct (answer W (trace st)) as [e|]; cbn; eauto.
Qed.

(** The guarded [reset()] again: whatever it does, it touches the trace
    only. *)
Lemma guarded_reset_trace d W st :
  let m := try_except (external (EDevReset d) (λ W tr, dev_reset W tr d))
             is_NotImplementedError
             (λ _, log WARNING "Could not reset the device, not implemented in usb backend") in
  ∃ f, m W st = (Ok tt, set_trace f st)
       ∨ ∃ e, dev_reset W (trace st) d = Some e ∧ is_NotImplementedError e = false
              ∧ m W st = (Raise e, set_trace f st).
Proof.
  unfold try_except, external, call, log, emit. cbn.
  destruct (dev_reset W (trace st) d) as [e|] eqn:He; cbn.
  - destruct (is_NotImplementedError e) eqn:Hni.
    + exists (λ tr, (tr ++ [EDevReset d])
                   ++ [ELog WARNING "Could not reset the device, not implemented in usb backend"]).
      left. reflexivity.
    + exists (λ tr, tr ++ [EDevReset d]). right. eauto.
  - exists (λ tr, tr ++ [EDevReset d]). left. reflexivity.
Qed.

Ltac step_answer :=
  lazymatch goal with
  | |- context [bind (external ?ev ?ans) ?k ?W ?s] =>
      let Ha := fresh "Hanswer" in
      let Hc := fresh "Hcall" in
      destruct (external_answer_cases ev ans W s) as [[Ha Hc] | (? & Ha & Hc)];
      [ rewrite (bind_Ok _ _ _ _ _ _ Hc) | rewrite (bind_Raise _ _ _ _ _ _ Hc) ];
      clear Hc
  end.

Ltac step_reset_trace :=
  lazymatch goal with
  | |- context [bind (try_except (external (EDevReset ?d) _) _ _) ?k ?W ?s] =>
      let Hrun := fresh "Hrun" in
      destruct (guarded_reset_trace d W s) as (? & [Hrun | (? & ? & ? & Hrun)]);
      [ rewrite (bind_Ok _ _ _ _ _ _ Hrun) | rewrite (bind_Raise _ _ _ _ _ _ Hrun) ];
      clear Hrun
  end.

(** Every way [open()] can go, on a driver that exists. *)
Lemma open_cases (W : world) (st : state) (self : ref) (this : USBDriver_.t) :
  drivers st !! self = Some this →
  let run := USBDriver.open self W st in
  let d := USBDriver_.dev this in
  pumps run.2 = pumps st ∧ nodes run.2 = nodes st ∧ scanners run.2 = scanners st
  ∧ ((∃ e, run.1 = Raise e ∧ drivers run.2 = drivers st
           ∧ (device_answers W d →
              interface00 d = None ∧ exn_class e = IndexError))
     ∨ ∃ intf, interface00 d = Some intf
         ∧ match first_out intf, first_in intf with
           | Some eo, Some ei =>
               run.1 = Ok tt
               ∧ drivers run.2
                 = <[self := {| USBDriver_.dev := d; USBDriver_._in := Some ei;
                                USBDriver_._out := Some eo |}]> (drivers st)
           | Some eo, None =>
               run.1 = Raise no_bEndpointAddress
               ∧ drivers run.2
                 = <[self := {| USBDriver_.dev := d; USBDriver_._in := None;
                                USBDriver_._out := Some eo |}]> (drivers st)
           | None, _ =>
               run.1 = Raise no_bEndpointAddress
               ∧ drivers run.2
                 = <[self := {| USBDriver_.dev := d; USBDriver_._in := USBDriver_._in this;
                                USBDriver_._out := None |}]> (drivers st)
           end).
Proof.
  intros Hself. cbv zeta. unfold interface00, first_out, first_in, is_out, is_in.
  unfold USBDriver.open. do 4 step.
  step_answer.
  2:{ cbn. repeat (split; [reflexivity |]). left. eexists.
      repeat (split; [reflexivity |]). intros (Hcfg & _). congruence. }
  step_reset_trace.
  2:{ cbn. repeat (split; [reflexivity |]). left. eexists.
      repeat (split; [reflexivity |]). intros (_ & Hreset & _).
      match goal with H : dev_reset _ _ _ = Some _ |- _ => apply Hreset in H end.
      congruence. }
  step. destruct (is_windows W); step.
  all: step_answer.
  2,4: (cbn; repeat (split; [reflexivity |]); left; eexists;
        repeat (split; [reflexivity |]); intros (_ & _ & Hact); congruence).
  all: destruct (Configuration_getitem _ _) as [intf|] eqn:Hintf.
  2,4: (cbn; repeat (split; [reflexivity |]); left; eexists;
        repeat (split; [reflexivity |]); reflexivity).
  all: do 4 step; cbn.
  all: destruct (find_descriptor (endpoints intf)
         (λ e, (endpoint_direction (bEndpointAddress e) =? ENDPOINT_OUT)%Z))
         as [eo|] eqn:Ho.
  2,4: (cbn; repeat (split; [reflexivity |]); right; exists intf;
        split; [reflexivity |]; rewrite Ho; split; reflexivity).
  all: repeat step; cbn.
  all: destruct (find_descriptor (endpoints intf)
         (λ e, (endpoint_direction (bEndpointAddress e) =? ENDPOINT_IN)%Z))
         as [ei|] eqn:Hi.
  2,4: (cbn; repeat (split; [reflexivity |]); right; exists intf;
        split; [reflexivity |]; rewrite Ho, Hi; split; [reflexivity |];
        by rewrite insert_insert_eq).
  all: repeat step; cbn; repeat (split; [reflexivity |]); right; exists intf.
  all: split; [reflexivity |]; rewrite Ho, Hi; split; [reflexivity |].
  all: by rewrite insert_insert_eq.
Qed.

(** X1.  If [open()] returns, interface (0,0) exists and has an endpoint
    of each direction, and the driver holds the first OUT and the first IN
    endpoint of it: a driver that opened never has an endpoint unset. *)
Theorem open_returns_with_endpoints (W : world) (st : state) (self : ref)
    (this : USBDriver_.t) :
  drivers st !! self = Some this →
  (USBDriver.open self W st).1 = Ok tt →
  ∃ intf eo ei,
    interface00 (USBDriver_.dev this) = Some intf
    ∧ first_out intf = Some eo ∧ first_in intf = Some ei
    ∧ drivers (USBDriver.open self W st).2 !! self
      = Some {| USBDriver_.dev := USBDriver_.dev this;
                USBDriver_._in := Some ei; USBDriver_._out := Some eo |}.
Proof.
  intros Hself Hok.
  destruct (open_cases W st self this Hself) as (_ & _ & _ & [(e & He & _) | (intf & Hintf & H)]).
  { rewrite He in Hok. discriminate. }
  exists intf.
  destruct (first_out intf) as [eo|], (first_in intf) as [ei|];
    destruct H as [Hres Hdrv]; rewrite Hres in Hok; try discriminate.
  exists eo, ei. rewrite Hdrv, lookup_insert_eq. done.
Qed.

Lemma open_returns_with_endpoints_witness :
  drivers (fresh_driver ant_stick) !! 0%nat
  = Some {| USBDriver_.dev := ant_stick; USBDriver_._in := None; USBDriver_._out := None |}
  ∧ (USBDriver.open 0%nat quiet_world (fresh_driver ant_stick)).1 = Ok tt
  ∧ ∃ intf eo ei,
      interface00 ant_stick = Some intf
      ∧ first_out intf = Some eo ∧ first_in intf = Some ei
      ∧ drivers (USBDriver.open 0%nat quiet_world (fresh_driver ant_stick)).2 !! 0%nat
        = Some {| USBDriver_.dev := ant_stick;
                  USBDriver_._in := Some ei; USBDriver_._out := Some eo |}.
Proof.
  assert (H1 : drivers (fresh_driver ant_stick) !! 0%nat
               = Some {| USBDriver_.dev := ant_stick; USBDriver_._in := None;
                         USBDriver_._out := None |}) by (vm_compute; reflexivity).
  assert (H2 : (USBDriver.open 0%nat quiet_world (fresh_driver ant_stick)).1 = Ok tt)
    by (vm_compute; reflexivity).
  split; [exact H1 |]. split; [exact H2 |].
  exact (open_returns_with_endpoints quiet_world (fresh_driver ant_stick) 0%nat _ H1 H2).
Defined.

(** X2.  [open()] changes nothing but the two endpoint fields of its own
    driver: every other driver, the driver's device, and all pumps, nodes
    and scanners are as before, whether it returns or raises. *)
Theorem open_frame (W : world) (st : state) (self : ref) :
  let st' := (USBDriver.open self W st).2 in
  (∀ r, r ≠ self → drivers st' !! r = drivers st !! r)
  ∧ (USBDriver_.dev <$> drivers st' !! self) = (USBDriver_.dev <$> drivers st !! self)
  ∧ pumps st' = pumps st ∧ nodes st' = nodes st ∧ scanners st' = scanners st.
Proof.
  cbv zeta. destruct (drivers st !! self) as [this|] eqn:Hself.
  - destruct (open_cases W st self this Hself)
      as (Hp & Hn & Hs & [(e & _ & Hdrv & _) | (intf & _ & H)]).
    + rewrite Hdrv, Hself. done.
    + assert (Hd : ∃ this', drivers (USBDriver.open self W st).2 = <[self := this']> (drivers st)
                            ∧ USBDriver_.dev this' = USBDriver_.dev this).
      { destruct (first_out intf), (first_in intf); destruct H as [_ ->]; eauto. }
      destruct Hd as (this' & -> & Hdev).
      split; [intros r Hr; by rewrite lookup_insert_ne |].
      rewrite lookup_insert_eq. cbn. rewrite Hdev. done.
  - assert (Hrun : USBDriver.open self W st
                   = (Raise (Exn ReferenceError "USBDriver" None), st)).
    { unfold USBDriver.open. apply bind_Raise. unfold USBDriver.get. by rewrite Hself. }
    rewrite Hrun. cbn. rewrite Hself. done.
Qed.

(** X3.  A half-opened driver.  When the device answers and interface
    (0,0) has an OUT endpoint but no IN endpoint, [open()] raises the
    [AttributeError] of the second debug line, and the driver is left with
    its OUT endpoint assigned and its IN endpoint [None]. *)
Theorem open_half_open (W : world) (st : state) (self : ref) (this : USBDriver_.t)
    (intf : Interface) (eo : Endpoint) :
  drivers st !! self = Some this →
  device_answers W (USBDriver_.dev this) →
  interface00 (USBDriver_.dev this) = Some intf →
  first_out intf = Some eo →
  first_in intf = None →
  (USBDriver.open self W st).1 = Raise no_bEndpointAddress
  ∧ drivers (USBDriver.open self W st).2 !! self
    = Some {| USBDriver_.dev := USBDriver_.dev this;
              USBDriver_._in := None; USBDriver_._out := Some eo |}.
Proof.
  intros Hself Hans Hintf Ho Hi.
  destruct (open_cases W st self this Hself)
    as (_ & _ & _ & [(e & _ & _ & Hnone) | (intf' & Hintf' & H)]).
  { destruct (Hnone Hans) as [Hnone' _]. congruence. }
  assert (intf' = intf) as -> by congruence.
  rewrite Ho, Hi in H. destruct H as [-> ->]. by rewrite lookup_insert_eq.
Qed.

Lemma open_half_open_witness :
  let intf := {| bInterfaceNumber := 0; bAlternateSetting := 0; endpoints := [bulk_out] |} in
  drivers (fresh_driver no_in) !! 0%nat
  = Some {| USBDriver_.dev := no_in; USBDriver_._in := None; USBDriver_._out := None |}
  ∧ device_answers quiet_world no_in
  ∧ interface00 no_in = Some intf
  ∧ first_out intf = Some bulk_out
  ∧ first_in intf = None
  ∧ (USBDriver.open 0%nat quiet_world (fresh_driver no_in)).1 = Raise no_bEndpointAddress
  ∧ drivers (USBDriver.open 0%nat quiet_world (fresh_driver no_in)).2 !! 0%nat
    = Some {| USBDriver_.dev := no_in;
              USBDriver_._in := None; USBDriver_._out := Some bulk_out |}.
Proof.
  cbv zeta.
  assert (H1 : drivers (fresh_driver no_in) !! 0%nat
               = Some {| USBDriver_.dev := no_in; USBDriver_._in := None;
                         USBDriver_._out := None |}) by (vm_compute; reflexivity).
  split; [exact H1 |]. split; [apply quiet_world_answers |].
  split; [reflexivity |]. split; [reflexivity |]. split; [reflexivity |].
  exact (open_half_open quiet_world (fresh_driver no_in) 0%nat _ _ bulk_out H1
           (quiet_world_answers no_in) eq_refl eq_refl eq_refl).
Defined.

(** X4.  When the device refuses [set_configuration()], [open()] raises
    that very exception at once: no reset is attempted, the configuration
    is not read, and the store is untouched. *)
Theorem open_configuration_refused (W : world) (st : state) (self : ref)
    (this : USBDriver_.t) (e : exn) :
  drivers st !! self = Some this →
  (∀ tr, dev_set_configuration W tr (USBDriver_.dev this) = Some e) →
  ∃ line1 line2,
    USBDriver.open self W st
    = (Raise e,
       set_trace (λ tr, tr ++ [ELog DEBUG line1; ELog DEBUG line2;
                               EDevSetConfiguration (USBDriver_.dev this)]) st).
Proof.
  intros Hself Hcfg. eexists _, _.
  unfold USBDriver.open. do 4 step.
  erewrite bind_Raise by (unfold external, call; rewrite Hcfg; reflexivity).
  unfold set_trace. cbn. rewrite <- !app_assoc. reflexivity.
Qed.

Lemma open_configuration_refused_witness :
  let e := Exn USBError "No such device" None in
  drivers (fresh_driver ant_stick) !! 0%nat
  = Some {| USBDriver_.dev := ant_stick; USBDriver_._in := None; USBDriver_._out := None |}
  ∧ (∀ tr, dev_set_configuration unplugged_world tr ant_stick = Some e)
  ∧ ∃ line1 line2,
      USBDriver.open 0%nat unplugged_world (fresh_driver ant_stick)
      = (Raise e,
         set_trace (λ tr, tr ++ [ELog DEBUG line1; ELog DEBUG line2;
                                 EDevSetConfiguration ant_stick])
           (fresh_driver ant_stick)).
Proof.
  cbv zeta.
  assert (H1 : drivers (fresh_driver ant_stick) !! 0%nat
               = Some {| USBDriver_.dev := ant_stick; USBDriver_._in := None;
                         USBDriver_._out := None |}) by (vm_compute; reflexivity).
  split; [exact H1 |]. split; [reflexivity |].
  exact (open_configuration_refused unplugged_world (fresh_driver ant_stick) 0%nat _
           (Exn USBError "No such device" None) H1 (λ _, eq_refl)).
Defined.

(** X5.  When the device answers but its configuration has no interface 0
    with an alternate setting 0, [open()] raises an [IndexError] and assigns
    no endpoint. *)
Theorem open_missing_interface (W : world) (st : state) (self : ref)
    (this : USBDriver_.t) :
  drivers st !! self = Some this →
  device_answers W (USBDriver_.dev this) →
  interface00 (USBDriver_.dev this) = None →
  ∃ e, (USBDriver.open self W st).1 = Raise e
       ∧ exn_class e = IndexError
       ∧ drivers (USBDriver.open self W st).2 = drivers st.
Proof.
  intros Hself Hans Hintf.
  destruct (open_cases W st self this Hself)
    as (_ & _ & _ & [(e & He & Hdrv & Hnone) | (intf' & Hintf' & _)]);
    [| congruence].
  exists e. destruct (Hnone Hans) as [_ Hcls]. done.
Qed.

Lemma open_missing_interface_witness :
  drivers (fresh_driver bare_device) !! 0%nat
  = Some {| USBDriver_.dev := bare_device; USBDriver_._in := None; USBDriver_._out := None |}
  ∧ device_answers quiet_world bare_device
  ∧ interface00 bare_device = None
  ∧ ∃ e, (USBDriver.open 0%nat quiet_world (fresh_driver bare_device)).1 = Raise e
         ∧ exn_class e = IndexError
         ∧ drivers (USBDriver.open 0%nat quiet_world (fresh_driver bare_device)).2
           = drivers (fresh_driver bare_device).
Proof.
  assert (H1 : drivers (fresh_driver bare_device) !! 0%nat
               = Some {| USBDriver_.dev := bare_device; USBDriver_._in := None;
                         USBDriver_._out := None |}) by (vm_compute; reflexivity).
  split; [exact H1 |]. split; [apply quiet_world_answers |]. split; [reflexivity |].
  exact (open_missing_interface quiet_world (fresh_driver bare_device) 0%nat _ H1
           (quiet_world_answers bare_device) eq_refl).
Defined.

(** ** More on teardown *)

Lemma stop_cases t W st :
  let st1 := set_trace (λ tr, tr ++ [ENodeStop t]) st in
  let m := try_except (AntTransceiver.stop t ;; ret "") is_Exception
             (λ e, log DEBUG "Failed to stop the ANT+ Node" ;;
                   ret ("" +:+ "Failed to stop the ANT+ Node: " +:+ exn_msg e)) in
  match node_stop W (trace st) t with
  | None => m W st = (Ok "", st1)
  | Some e =>
      if is_Exception e then
        m W st = (Ok ("Failed to stop the ANT+ Node: " +:+ exn_msg e),
                  set_trace (λ tr, tr ++ [ELog DEBUG "Failed to stop the ANT+ Node"]) st1)
      else m W st = (Raise e, st1)
  end.
Proof.
  unfold try_except, AntTransceiver.stop, external, call, bind, log, emit, ret, raises.
  destruct (node_stop W (trace st) t) as [e|]; cbn; [| reflexivity].
  destruct (is_Exception e); reflexivity.
Qed.

(** X6.  With a driver and a transceiver both given, [teardown_transceiver]
    returns normally exactly when [stop()] returned and the [close()] that
    followed it returned: any failure of either step reaches the caller. *)
Theorem teardown_transceiver_returns_iff (W : world) (st : state) (d : driver_obj)
    (t : ref) :
  (teardown_transceiver (Some d) (Some t) W st).1 = Ok tt
  ↔ node_stop W (trace st) t = None
    ∧ (Driver_close d W (set_trace (λ tr, tr ++ [ENodeStop t]) st)).1 = Ok tt.
Proof.
  unfold teardown_transceiver.
  pose proof (stop_cases t W st) as Hstop. cbv zeta in Hstop.
  destruct (node_stop W (trace st) t) as [e|].
  - split; [| intros [? _]; discriminate].
    destruct (is_Exception e).
    + erewrite bind_Ok by exact Hstop. unfold bind, try_except, bind.
      destruct (Driver_close d W _) as [[[]|e2] st2]; cbn; [discriminate |].
      destruct (is_Exception e2); discriminate.
    + erewrite bind_Raise by exact Hstop. discriminate.
  - erewrite bind_Ok by exact Hstop. unfold bind, try_except, bind.
    destruct (Driver_close d W _) as [[[]|e2] st2]; cbn.
    + done.
    + split; [| intros [_ ?]; discriminate].
      destruct (is_Exception e2); discriminate.
Qed.

(** X7.  An exception of [stop()] that is no [Exception] (a Ctrl-C, say)
    is not caught: it leaves [teardown_transceiver] as it is, the failure is
    not logged, and [close()] is never called, whatever driver was given. *)
Theorem teardown_transceiver_interrupted (W : world) (st : state)
    (usb_driver : option driver_obj) (t : ref) (e : exn) :
  node_stop W (trace st) t = Some e →
  is_Exception e = false →
  teardown_transceiver usb_driver (Some t) W st
  = (Raise e, set_trace (λ tr, tr ++ [ENodeStop t]) st).
Proof.
  intros Hstop Hexc. unfold teardown_transceiver.
  pose proof (stop_cases t W st) as Hcases. cbv zeta in Hcases.
  rewrite Hstop, Hexc in Hcases. by apply bind_Raise.
Qed.

Lemma teardown_transceiver_interrupted_witness :
  let e := Exn KeyboardInterrupt "" None in
  let st := opened_driver ant_stick in
  node_stop interrupted_world (trace st) 0%nat = Some e
  ∧ is_Exception e = false
  ∧ teardown_transceiver (Some (Patched 0%nat)) (Some 0%nat) interrupted_world st
    = (Raise e, set_trace (λ tr, tr ++ [ENodeStop 0%nat]) st).
Proof.
  cbv zeta. split; [reflexivity |]. split; [reflexivity |].
  exact (teardown_transceiver_interrupted interrupted_world (opened_driver ant_stick)
           (Some (Patched 0%nat)) 0%nat (Exn KeyboardInterrupt "" None) eq_refl eq_refl).
Defined.

(** ** More on the scanner helpers *)

(** X8.  Given a scanner, [teardown_scanner] calls [close_channel()] once.
    It returns when the call returns; an [Exception] of the call is logged
    and comes out as a [RuntimeError] carrying its message; anything else
    passes through untouched. *)
Theorem teardown_scanner_outcome (W : world) (st : state) (sc : ref) :
  let st1 := set_trace (λ tr, tr ++ [EScannerCloseChannel sc]) st in
  teardown_scanner (Some sc) W st
  = match scanner_close_channel W (trace st) sc with
    | None => (Ok tt, st1)
    | Some e =>
        if is_Exception e then
          (Raise (Exn RuntimeError
                    ("Failed to stop the ANT Client Scanner: " +:+ exn_msg e) None),
           set_trace (λ tr, tr ++ [ELog DEBUG "Failed to stop the ANT Client Scanner"]) st1)
        else (Raise e, st1)
    end.
Proof.
  unfold teardown_scanner, try_except, Scanner.close_channel, external, call, bind, log,
    emit, ret, raise, raises.
  destruct (scanner_close_channel W (trace st) sc) as [e|]; cbn; [| reflexivity].
  destruct (is_Exception e); reflexivity.
Qed.

(** X9.  When the library's [Scanner] constructor raises an [Exception],
    [setup_scanner] raises a [RuntimeError] whose cause is that exception.
    No scanner exists yet, so none is created and [close_channel()] is not
    called: the only calls made are the constructor's and two log lines. *)
Theorem setup_scanner_constructor_fails (W : world) (st : state) (transceiver : ref)
    (callbacks : gmap string callback) (e : exn) :
  scanner_new W (trace st ++ [ELog DEBUG "Setting up ANT Client Scanner"]) transceiver
  = Some e →
  is_Exception e = true →
  setup_scanner transceiver callbacks W st
  = (Raise (Exn RuntimeError "Failed to setup the ANT Client Scanner" (Some e)),
     set_trace
       (λ tr, tr ++ [ELog DEBUG "Setting up ANT Client Scanner";
                     EScannerNew transceiver;
                     ELog DEBUG
                       "Some Error encountered while setting up the Client Scanner; will teardown"])
       st).
Proof.
  intros Hnew Hexc.
  unfold setup_scanner, setup_scanner_failed, teardown_scanner, Scanner.__init__,
    try_except, bind, log, emit, external, call, ret, raise, raises.
  cbn. rewrite Hnew. cbn. rewrite Hexc. cbn.
  unfold set_trace. cbn. rewrite <- !app_assoc. reflexivity.
Qed.

Lemma setup_scanner_constructor_fails_witness :
  let e := Exn (ForeignError "AntException") "no free channel" None in
  scanner_new scannerless_world
    (trace empty_state ++ [ELog DEBUG "Setting up ANT Client Scanner"]) 0%nat = Some e
  ∧ is_Exception e = true
  ∧ setup_scanner 0%nat DEFAULT_SCANNER_CALLBACKS scannerless_world empty_state
    = (Raise (Exn RuntimeError "Failed to setup the ANT Client Scanner" (Some e)),
       set_trace
         (λ tr, tr ++ [ELog DEBUG "Setting up ANT Client Scanner";
                       EScannerNew 0%nat;
                       ELog DEBUG
                         "Some Error encountered while setting up the Client Scanner; will teardown"])
         empty_state).
Proof.
  cbv zeta. split; [reflexivity |]. split; [reflexivity |].
  exact (setup_scanner_constructor_fails scannerless_world empty_state 0%nat
           DEFAULT_SCANNER_CALLBACKS
           (Exn (ForeignError "AntException") "no free channel" None) eq_refl eq_refl).
Defined.

(** X10.  When the constructor returns, the scanner it built sits on the
    given transceiver and carries exactly the callbacks of the dict: a key
    that is present replaces the scanner's handler, a key that is absent
    leaves the scanner's own handler in place.  No scanner that existed
    before is touched. *)
Theorem setup_scanner_installs_callbacks (W : world) (st : state) (transceiver : ref)
    (callbacks : gmap string callback) :
  scanner_new W (trace st ++ [ELog DEBUG "Setting up ANT Client Scanner"]) transceiver
  = None →
  let st' := (setup_scanner transceiver callbacks W st).2 in
  let sc := fresh (dom (scanners st)) in
  scanners st' !! sc
  = Some {| Scanner_.node := transceiver;
            Scanner_.on_found := callbacks !! "on_found";
            Scanner_.on_update := callbacks !! "on_update" |}
  ∧ ∀ r, r ≠ sc → scanners st' !! r = scanners st !! r.
Proof.
  intros Hnew.
  unfold setup_scanner, set_on_found, set_on_update, Scanner.__init__, Scanner.get,
    Scanner.put, try_except, bind, log, emit, external, call, ret, raises.
  cbn. rewrite Hnew. cbn.
  destruct (callbacks !! "on_found"), (callbacks !! "on_update"); cbn;
    rewrite ?lookup_insert_eq; cbn; rewrite ?lookup_insert_eq; cbn.
  all: split; [by rewrite ?lookup_insert_eq |].
  all: intros r Hr; by rewrite ?lookup_insert_ne.
Qed.

Lemma setup_scanner_installs_callbacks_witness :
  let cbs : gmap string callback := <["on_found" := UserCallback 7]> ∅ in
  let st' := (setup_scanner 0%nat cbs quiet_world empty_state).2 in
  scanner_new quiet_world (trace empty_state ++ [ELog DEBUG "Setting up ANT Client Scanner"])
    0%nat = None
  ∧ scanners st' !! fresh (dom (scanners empty_state))
    = Some {| Scanner_.node := 0%nat;
              Scanner_.on_found := cbs !! "on_found";
              Scanner_.on_update := cbs !! "on_update" |}
  ∧ ∀ r, r ≠ fresh (dom (scanners empty_state)) →
         scanners st' !! r = scanners empty_state !! r.
Proof.
  cbv zeta. split; [reflexivity |].
  exact (setup_scanner_installs_callbacks quiet_world empty_state 0%nat
           (<["on_found" := UserCallback 7]> ∅) eq_refl).
Defined.

(** ** More on session setup *)

(** X11.  When [usb.core.find] returns [None], [setup_transceiver] raises
    a [RuntimeError] whose message wraps the inner [Exception] with its class
    name; it has done nothing but search: no device was configured and no
    object built. *)
Theorem setup_transceiver_no_device (W : world) (st : state) (usb_id : USBIdentity)
    (libusb1_path : option string) :
  (∀ tr path, usb_get_backend W tr path = None) →
  (∀ tr, usb_find W tr usb_id libusb1_path = Ok FoundNone) →
  setup_transceiver usb_id libusb1_path W st
  = (Raise (Exn RuntimeError
              ("Couldn't find the `ANT USB-M Transceiver` USB Device: "
               +:+ "(Exception) Unexpected Error: Failed to set a device") None),
     set_trace (λ tr, tr ++ search_events usb_id libusb1_path) st).
Proof.
  intros Hbackend Hfind. unfold setup_transceiver.
  apply bind_Raise.
  unfold try_except, bind, external, call, log, emit, raise, ret, raises.
  destruct libusb1_path as [path|]; cbn.
  - rewrite Hbackend. cbn. rewrite Hfind. cbn.
    unfold set_trace. cbn. rewrite <- !app_assoc. reflexivity.
  - rewrite Hfind. cbn. unfold set_trace. cbn. rewrite <- !app_assoc. reflexivity.
Qed.

(** X12.  When [usb.core.find] raises [e], an [Exception] comes out as a
    [RuntimeError] naming the class and the message of [e]; anything else
    (a Ctrl-C, say) comes out as it is.  Either way nothing was done but the
    search. *)
Theorem setup_transceiver_find_raises (W : world) (st : state) (usb_id : USBIdentity)
    (libusb1_path : option string) (e : exn) :
  (∀ tr path, usb_get_backend W tr path = None) →
  (∀ tr, usb_find W tr usb_id libusb1_path = Raise e) →
  setup_transceiver usb_id libusb1_path W st
  = (if is_Exception e then
       Raise (Exn RuntimeError
                ("Couldn't find the `ANT USB-M Transceiver` USB Device: ("
                 +:+ class_name (exn_class e) +:+ ") " +:+ exn_msg e) None)
     else Raise e,
     set_trace (λ tr, tr ++ search_events usb_id libusb1_path) st).
Proof.
  intros Hbackend Hfind. unfold setup_transceiver.
  destruct (is_Exception e) eqn:Hexc.
  all: apply bind_Raise.
  all: unfold try_except, bind, external, call, log, emit, raise, ret, raises.
  all: destruct libusb1_path as [path|]; cbn.
  all: rewrite ?Hbackend; cbn; rewrite Hfind; cbn; rewrite Hexc.
  all: unfold set_trace; cbn; rewrite <- !app_assoc; reflexivity.
Qed.

(** X13.  When [usb.core.find] hands back a generator of fewer than two
    devices, the generator is listed but never replaced by a device, and the
    [assert isinstance(usb_dev, usb.core.Device)] fails: [setup_transceiver]
    raises an [AssertionError] right after logging that the device was
    found, also when exactly one device is there. *)
Theorem setup_transceiver_lone_generator (W : world) (st : state) (usb_id : USBIdentity)
    (libusb1_path : option string) (ds : list Device) :
  (∀ tr path, usb_get_backend W tr path = None) →
  (∀ tr, usb_find W tr usb_id libusb1_path = Ok (FoundGenerator ds)) →
  (length ds < 2)%nat →
  setup_transceiver usb_id libusb1_path W st
  = (Raise (Exn AssertionError "" None),
     set_trace (λ tr, tr ++ search_events usb_id libusb1_path
                         ++ [ELog SUCCESS "Found the `ANT USB-M Transceiver` USB Device"])
       st).
Proof.
  intros Hbackend Hfind Hlen. unfold setup_transceiver.
  assert (Hsearch : ∀ k : found → M (ref * ref),
    bind (try_except
      (usb_dev <- match libusb1_path with
                  | Some path =>
                      log DEBUG ("Using custom libusb1 path: " +:+ path) ;;
                      external (EGetBackend path) (λ W tr, usb_get_backend W tr path) ;;
                      call (EUsbFind usb_id (Some path))
                           (λ W tr, usb_find W tr usb_id (Some path))
                  | None =>
                      log DEBUG "Searching for an available USB Backend" ;;
                      call (EUsbFind usb_id None) (λ W tr, usb_find W tr usb_id None)
                  end ;;
       match usb_dev with
       | FoundNone => raise (Exn Exception "Unexpected Error: Failed to set a device" None)
       | _ => ret usb_dev
       end)
      is_Exception
      (λ e, raise (Exn RuntimeError
                     ("Couldn't find the `ANT USB-M Transceiver` USB Device: ("
                      +:+ class_name (exn_class e) +:+ ") " +:+ exn_msg e) None))) k W st
    = k (FoundGenerator ds) W
        (set_trace (λ tr, tr ++ search_events usb_id libusb1_path) st)).
  { intros k. apply bind_Ok.
    unfold try_except, bind, external, call, log, emit, raise, ret, raises.
    destruct libusb1_path as [path|]; cbn.
    - rewrite Hbackend. cbn. rewrite Hfind. cbn.
      unfold set_trace. cbn. rewrite <- !app_assoc. reflexivity.
    - rewrite Hfind. cbn. unfold set_trace. cbn. rewrite <- !app_assoc. reflexivity. }
  rewrite Hsearch. erewrite bind_Ok by reflexivity.
  destruct ds as [|d0 [|d1 ds]]; [| | cbn in Hlen; lia].
  all: erewrite bind_Ok by reflexivity.
  all: erewrite bind_Raise by reflexivity.
  all: unfold set_trace; cbn; rewrite <- !app_assoc; reflexivity.
Qed.

Lemma setup_transceiver_no_device_witness :
  (∀ tr path, usb_get_backend empty_bus_world tr path = None)
  ∧ (∀ tr, usb_find empty_bus_world tr ant_usb_m None = Ok FoundNone)
  ∧ setup_transceiver ant_usb_m None empty_bus_world empty_state
    = (Raise (Exn RuntimeError
                ("Couldn't find the `ANT USB-M Transceiver` USB Device: "
                 +:+ "(Exception) Unexpected Error: Failed to set a device") None),
       set_trace (λ tr, tr ++ search_events ant_usb_m None) empty_state).
Proof.
  split; [reflexivity |]. split; [reflexivity |].
  exact (setup_transceiver_no_device empty_bus_world empty_state ant_usb_m None
           (λ _ _, eq_refl) (λ _, eq_refl)).
Defined.

Lemma setup_transceiver_find_raises_witness :
  (∀ tr path, usb_get_backend forbidden_bus_world tr path = None)
  ∧ (∀ tr, usb_find forbidden_bus_world tr ant_usb_m (Some "/usr/lib/libusb-1.0.so")
           = Raise (Exn USBError "Access denied (insufficient permissions)" None))
  ∧ setup_transceiver ant_usb_m (Some "/usr/lib/libusb-1.0.so") forbidden_bus_world empty_state
    = (if is_Exception (Exn USBError "Access denied (insufficient permissions)" None) then
         Raise (Exn RuntimeError
                  ("Couldn't find the `ANT USB-M Transceiver` USB Device: ("
                   +:+ class_name
                         (exn_class (Exn USBError "Access denied (insufficient permissions)"
                                       None))
                   +:+ ") "
                   +:+ exn_msg (Exn USBError "Access denied (insufficient permissions)" None))
                  None)
       else Raise (Exn USBError "Access denied (insufficient permissions)" None),
       set_trace (λ tr, tr ++ search_events ant_usb_m (Some "/usr/lib/libusb-1.0.so"))
         empty_state).
Proof.
  split; [reflexivity |]. split; [reflexivity |].
  exact (setup_transceiver_find_raises forbidden_bus_world empty_state ant_usb_m
           (Some "/usr/lib/libusb-1.0.so")
           (Exn USBError "Access denied (insufficient permissions)" None)
           (λ _ _, eq_refl) (λ _, eq_refl)).
Defined.

Lemma setup_transceiver_lone_generator_witness :
  (∀ tr path, usb_get_backend lone_stick_world tr path = None)
  ∧ (∀ tr, usb_find lone_stick_world tr ant_usb_m None = Ok (FoundGenerator [ant_stick]))
  ∧ (length [ant_stick] < 2)%nat
  ∧ setup_transceiver ant_usb_m None lone_stick_world empty_state
    = (Raise (Exn AssertionError "" None),
       set_trace (λ tr, tr ++ search_events ant_usb_m None
                           ++ [ELog SUCCESS "Found the `ANT USB-M Transceiver` USB Device"])
         empty_state).
Proof.
  assert (Hlen : (length [ant_stick] < 2)%nat) by (cbn; lia).
  split; [reflexivity |]. split; [reflexivity |]. split; [exact Hlen |].
  exact (setup_transceiver_lone_generator lone_stick_world empty_state ant_usb_m None
           [ant_stick] (λ _ _, eq_refl) (λ _, eq_refl) Hlen).
Defined.

(** What the node's constructor does, in full. *)
Lemma node_init_run pump W st :
  let n := fresh (dom (nodes st)) in
  ∃ this,
    AntTransceiver.__init__ pump W st
    = (Ok n,
       set_trace (λ tr, tr ++ [EThreadStart {| target := Node_worker n;
                                               name := "openant.easy" |}])
         (set_nodes (insert n this) st))
    ∧ AntTransceiver_.ant this = pump
    ∧ AntTransceiver_._running this = true.
Proof.
  unfold AntTransceiver.__init__, AntTransceiver.get, AntTransceiver.put, bind, ret, emit.
  cbn. rewrite lookup_insert_eq. cbn.
  eexists. split.
  { unfold set_trace, set_nodes. cbn. rewrite insert_insert_eq. reflexivity. }
  split; reflexivity.
Qed.

(** A pump that was built holds the driver it was given, runs, and has
    opened that driver. *)
Lemma pump_init_Ok_inv d W st p st' :
  AntTransceiverDevice.__init__ d W st = (Ok p, st') →
  ∃ this st0 st1,
    pumps st' !! p = Some this
    ∧ AntTransceiverDevice_._driver this = d
    ∧ AntTransceiverDevice_._running this = true
    ∧ drivers st0 = drivers st ∧ trace st0 = trace st
    ∧ Driver_open d W st0 = (Ok tt, st1)
    ∧ drivers st' = drivers st1.
Proof.
  intros Hrun. unfold AntTransceiverDevice.__init__ in Hrun.
  apply bind_Ok_inv in Hrun as (self & st0 & Halloc & Hrun).
  injection Halloc as <- <-.
  apply bind_Ok_inv in Hrun as (this0 & s & Hget & Hrun).
  unfold AntTransceiverDevice.get in Hget. cbn in Hget.
  rewrite lookup_insert_eq in Hget. injection Hget as <- <-.
  apply bind_Ok_inv in Hrun as ([] & st1 & Hopen & Hrun). cbn in Hopen.
  pose proof (Driver_open_keeps_pumps d W
    (set_pumps (insert (fresh (dom (pumps st)))
       {| AntTransceiverDevice_._driver := d;
          AntTransceiverDevice_._message_queue := [];
          AntTransceiverDevice_._events := [];
          AntTransceiverDevice_._buffer := [];
          AntTransceiverDevice_._burst_data := [];
          AntTransceiverDevice_._last_data := [];
          AntTransceiverDevice_._running := true;
          AntTransceiverDevice_._worker_thread := None |}) st)) as Hp.
  rewrite Hopen in Hp. cbn in Hp.
  apply bind_Ok_inv in Hrun as (this1 & s & Hget & Hrun).
  unfold AntTransceiverDevice.get in Hget. rewrite Hp, lookup_insert_eq in Hget.
  injection Hget as <- <-.
  apply bind_Ok_inv in Hrun as ([] & s & Hput & Hrun). injection Hput as <-.
  apply bind_Ok_inv in Hrun as ([] & s & Hemit & Hrun). injection Hemit as <-.
  apply bind_Ok_inv in Hrun as ([] & s & Hreset & Hrun).
  injection Hrun as <- <-.
  unfold AntTransceiverDevice.reset_system, external, call in Hreset.
  injection Hreset as _ <-.
  match type of Hopen with Driver_open _ _ ?s0 = _ => eexists _, s0, st1 end.
  split; [cbn; apply lookup_insert_eq |].
  split; [reflexivity |]. split; [reflexivity |].
  split; [reflexivity |]. split; [reflexivity |].
  split; [exact Hopen | reflexivity].
Qed.

(** X14.  What [setup_transceiver] returns is wired together: the second
    component is a running node whose pump runs on the patched driver that
    is the first component, and that driver has been opened, with an OUT and
    an IN endpoint selected. *)
Theorem setup_transceiver_wires_session (W : world) (st : state) (usb_id : USBIdentity)
    (libusb1_path : option string) (usb_driver transceiver : ref) :
  (setup_transceiver usb_id libusb1_path W st).1 = Ok (usb_driver, transceiver) →
  let st' := (setup_transceiver usb_id libusb1_path W st).2 in
  ∃ node pump this eo ei,
    nodes st' !! transceiver = Some node
    ∧ AntTransceiver_._running node = true
    ∧ pumps st' !! AntTransceiver_.ant node = Some pump
    ∧ AntTransceiverDevice_._running pump = true
    ∧ AntTransceiverDevice_._driver pump = Patched usb_driver
    ∧ drivers st' !! usb_driver = Some this
    ∧ USBDriver_._out this = Some eo
    ∧ USBDriver_._in this = Some ei.
Proof.
  intros Hres. cbv zeta.
  destruct (setup_transceiver usb_id libusb1_path W st) as [r st'] eqn:Hrun.
  cbn in Hres. subst r. cbn. unfold setup_transceiver in Hrun.
  do 7 (apply bind_Ok_inv in Hrun as (? & ? & _ & Hrun)).
  (* the driver *)
  apply bind_Ok_inv in Hrun as (drv & s8 & Hdrv & Hrun).
  apply try_except_Ok_inv in Hdrv as [Hdrv | (? & ? & _ & _ & Hdrv)];
    [| by apply setup_transceiver_failed_raises in Hdrv].
  apply bind_Ok_inv in Hdrv as ([] & s & Hlog & Hdrv). injection Hlog as <-.
  injection Hdrv as <- <-.
  (* the pump and the node *)
  apply bind_Ok_inv in Hrun as (trx & s9 & Hnode & Hrun).
  apply try_except_Ok_inv in Hnode as [Hnode | (? & ? & _ & _ & Hnode)];
    [| by apply setup_transceiver_failed_raises in Hnode].
  apply bind_Ok_inv in Hnode as ([] & s & Hlog & Hnode). injection Hlog as <-.
  apply bind_Ok_inv in Hnode as (p & sp & Hpump & Hnode).
  destruct (node_init_run p W sp) as (node & Hnrun & Hant & Hnrunning).
  rewrite Hnrun in Hnode. injection Hnode as <- <-.
  apply pump_init_Ok_inv in Hpump
    as (pump & st0 & st1 & Hp & Hpdrv & Hprunning & Hd0 & _ & Hopen & Hd1).
  (* the key *)
  apply bind_Ok_inv in Hrun as ([] & s10 & Hkey & Hret).
  injection Hret as <- <- <-.
  apply try_except_Ok_inv in Hkey as [Hkey | (? & ? & _ & _ & Hkey)];
    [| by apply setup_transceiver_failed_raises in Hkey].
  apply bind_Ok_inv in Hkey as (key & s & Hask & Hkey). injection Hask as <- <-.
  unfold AntTransceiver.set_network_key, external, call in Hkey.
  injection Hkey as _ <-. cbn.
  (* the driver was opened *)
  unfold Driver_open in Hopen.
  apply bind_Ok_inv in Hopen as ([] & s & Hemit & Hopen). injection Hemit as <-.
  match type of Hopen with USBDriver.open ?r ?W ?s = _ =>
    assert (Hlive : ∃ d, drivers s !! r
                         = Some {| USBDriver_.dev := d; USBDriver_._in := None;
                                   USBDriver_._out := None |})
  end.
  { eexists. cbn. rewrite Hd0. cbn. apply lookup_insert_eq. }
  destruct Hlive as [d Hlive].
  destruct (open_cases W _ _ _ Hlive) as (_ & _ & _ & Hcases).
  rewrite Hopen in Hcases. cbn in Hcases.
  destruct Hcases as [(e & He & _) | (intf & _ & Hcases)]; [discriminate |].
  destruct (first_out intf) as [eo|], (first_in intf) as [ei|];
    destruct Hcases as [Hok Hdrivers]; try discriminate.
  eexists node, pump, _, eo, ei.
  split; [apply lookup_insert_eq |]. split; [exact Hnrunning |].
  rewrite Hant. split; [exact Hp |]. split; [exact Hprunning |].
  split; [exact Hpdrv |].
  rewrite Hd1, Hdrivers, lookup_insert_eq. done.
Qed.

Lemma setup_transceiver_wires_session_witness :
  (setup_transceiver ant_usb_m None quiet_world empty_state).1 = Ok (0%nat, 0%nat)
  ∧ ∃ node pump this eo ei,
      nodes (setup_transceiver ant_usb_m None quiet_world empty_state).2 !! 0%nat = Some node
      ∧ AntTransceiver_._running node = true
      ∧ pumps (setup_transceiver ant_usb_m None quiet_world empty_state).2
          !! AntTransceiver_.ant node = Some pump
      ∧ AntTransceiverDevice_._running pump = true
      ∧ AntTransceiverDevice_._driver pump = Patched 0%nat
      ∧ drivers (setup_transceiver ant_usb_m None quiet_world empty_state).2 !! 0%nat
        = Some this
      ∧ USBDriver_._out this = Some eo
      ∧ USBDriver_._in this = Some ei.
Proof.
  assert (H : (setup_transceiver ant_usb_m None quiet_world empty_state).1
              = Ok (0%nat, 0%nat)) by (vm_compute; reflexivity).
  split; [exact H |].
  exact (setup_transceiver_wires_session quiet_world empty_state ant_usb_m None
           0%nat 0%nat H).
Defined.

(** ** Scanning for clients *)

Lemma scan_finally_nothing W st :
  scan_finally None None None W st = (Ok tt, st).
Proof. reflexivity. Qed.

(** X15.  When [setup_transceiver] raises in [scan_for_clients], the
    [finally] clause finds all three locals [None] and does nothing.  A
    [KeyboardInterrupt] is logged and the scan ends normally with 0; any
    other exception reaches the caller as it is. *)
Theorem scan_for_clients_setup_fails (Node_start : ref → M unit) (W : world) (st : state)
    (identity : USBIdentity) (libusb1_path : option string) (e : exn) (st1 : state) :
  setup_transceiver identity libusb1_path W
    (set_trace (λ tr, tr ++ [ELog INFO "Scanning for ANT+ Client Devices"]) st)
  = (Raise e, st1) →
  scan_for_clients Node_start identity libusb1_path W st
  = if is_KeyboardInterrupt e then
      (Ok 0, set_trace (λ tr, tr ++ [ELog WARNING "User Requested Teardown";
                                      ELog SUCCESS "Scan Complete"]) st1)
    else (Raise e, st1).
Proof.
  intros Hsetup. unfold scan_for_clients.
  erewrite bind_Ok by reflexivity.
  unfold in_try. rewrite Hsetup. unfold scan_leave.
  destruct (is_KeyboardInterrupt e).
  - erewrite bind_Ok by reflexivity.
    erewrite bind_Ok by apply scan_finally_nothing.
    unfold scan_complete, bind, log, emit, ret, set_trace. cbn.
    rewrite <- !app_assoc. reflexivity.
  - erewrite bind_Ok by apply scan_finally_nothing. reflexivity.
Qed.

Lemma at_most_in_try f {A B} (m : M A) (leave : exn → M B) (k : A → M B) (P : A → Prop) :
  at_most f 0 m →
  (∀ W st a st', m W st = (Ok a, st') → P a) →
  (∀ e, at_most f 0 (leave e)) →
  (∀ a, P a → at_most f 0 (k a)) →
  at_most f 0 (in_try m leave k).
Proof.
  intros Hm HP Hleave Hk W st. unfold in_try.
  destruct (Hm W st) as (evs1 & Htr1 & Hn1).
  destruct (m W st) as [[a|e] st1] eqn:Hrun; cbn in Htr1.
  - destruct (Hk a (HP _ _ _ _ Hrun) W st1) as (evs2 & Htr2 & Hn2).
    exists (evs1 ++ evs2). rewrite Htr2, Htr1, app_assoc, occurrences_app.
    split; [done | lia].
  - destruct (Hleave e W st1) as (evs2 & Htr2 & Hn2).
    exists (evs1 ++ evs2). rewrite Htr2, Htr1, app_assoc, occurrences_app.
    split; [done | lia].
Qed.

Lemma open_no_scanner_close self : at_most is_scanner_close 0 (USBDriver.open self).
Proof. unfold USBDriver.open, USBDriver.getattr_bEndpointAddress. quiet. Qed.

Lemma Driver_open_no_scanner_close d : at_most is_scanner_close 0 (Driver_open d).
Proof. unfold Driver_open. quiet. apply open_no_scanner_close. Qed.

Lemma Driver_close_no_scanner_close d : at_most is_scanner_close 0 (Driver_close d).
Proof. unfold Driver_close, USBDriver.close. quiet. Qed.

Lemma pump_init_no_scanner_close d :
  at_most is_scanner_close 0 (AntTransceiverDevice.__init__ d).
Proof.
  unfold AntTransceiverDevice.__init__, AntTransceiverDevice.reset_system. quiet.
  apply Driver_open_no_scanner_close.
Qed.

Lemma node_init_no_scanner_close pump :
  at_most is_scanner_close 0 (AntTransceiver.__init__ pump).
Proof. unfold AntTransceiver.__init__. quiet. Qed.

Lemma teardown_transceiver_no_scanner_close usb_driver transceiver :
  at_most is_scanner_close 0 (teardown_transceiver usb_driver transceiver).
Proof.
  unfold teardown_transceiver, AntTransceiver.stop. quiet;
    apply Driver_close_no_scanner_close.
Qed.

Lemma setup_transceiver_no_scanner_close usb_id libusb1_path :
  at_most is_scanner_close 0 (setup_transceiver usb_id libusb1_path).
Proof.
  unfold setup_transceiver, setup_transceiver_failed, AntTransceiver.set_network_key.
  quiet.
  all: first [ apply teardown_transceiver_no_scanner_close
             | apply pump_init_no_scanner_close
             | apply node_init_no_scanner_close ].
Qed.

(** [setup_scanner] builds a scanner and never closes its channel; what it
    returns is [None]. *)
Lemma setup_scanner_no_scanner_close transceiver callbacks :
  at_most is_scanner_close 0 (setup_scanner transceiver callbacks).
Proof.
  intros W st.
  unfold setup_scanner, setup_scanner_failed, teardown_scanner, set_on_found,
    set_on_update, Scanner.__init__, Scanner.get, Scanner.put, try_except, bind, log,
    emit, external, call, ret, raise, raises.
  cbn.
  destruct (scanner_new W _ transceiver) as [e|]; cbn.
  - destruct (is_Exception e); cbn; eexists; rewrite <- ?app_assoc;
      (split; [reflexivity | unfold occurrences; cbn; lia]).
  - destruct (callbacks !! "on_found"), (callbacks !! "on_update"); cbn;
      rewrite ?lookup_insert_eq; cbn; rewrite ?lookup_insert_eq; cbn.
    all: eexists; rewrite <- ?app_assoc; (split; [reflexivity | unfold occurrences; cbn; lia]).
Qed.

Lemma setup_scanner_Ok_None transceiver callbacks W st r st' :
  setup_scanner transceiver callbacks W st = (Ok r, st') → r = None.
Proof.
  intros Hrun. unfold setup_scanner in Hrun.
  apply bind_Ok_inv in Hrun as (sc & st1 & _ & Hrun).
  apply bind_Ok_inv in Hrun as ([] & st2 & _ & Hrun).
  by injection Hrun as <- _.
Qed.

Lemma scan_finally_no_scanner_close usb_dev ant_trancvr :
  at_most is_scanner_close 0 (scan_finally usb_dev ant_trancvr None).
Proof.
  unfold scan_finally, teardown_scanner. quiet.
  apply teardown_transceiver_no_scanner_close.
Qed.

Lemma scan_leave_no_scanner_close usb_dev ant_trancvr e :
  at_most is_scanner_close 0 (scan_leave usb_dev ant_trancvr None e).
Proof.
  unfold scan_leave, scan_complete. quiet; apply scan_finally_no_scanner_close.
Qed.

(** X16.  [scan_for_clients] never closes the scanner's channel:
    [setup_scanner] returns [None], so the [finally] clause hands [None] to
    [teardown_scanner].  This holds on every path, as long as [Node.start]
    itself does not close it. *)
Theorem scan_for_clients_never_closes_scanner (Node_start : ref → M unit)
    (identity : USBIdentity) (libusb1_path : option string) :
  (∀ t, at_most is_scanner_close 0 (Node_start t)) →
  ∀ W st, ∃ evs,
    trace (scan_for_clients Node_start identity libusb1_path W st).2 = trace st ++ evs
    ∧ occurrences is_scanner_close evs = 0%nat.
Proof.
  intros Hstart.
  enough (H : at_most is_scanner_close 0 (scan_for_clients Node_start identity libusb1_path)).
  { intros W st. destruct (H W st) as (evs & Htr & Hn). exists evs. split; [done | lia]. }
  unfold scan_for_clients. apply at_most_bind0; [by quiet |]. intros _.
  apply (at_most_in_try _ _ _ _ (λ _, True)).
  - apply setup_transceiver_no_scanner_close.
  - done.
  - intros e. apply scan_leave_no_scanner_close.
  - intros [usb_dev ant_trancvr] _.
    apply (at_most_in_try _ _ _ _ (λ cs, cs = None)).
    + apply setup_scanner_no_scanner_close.
    + intros W st a st'. apply setup_scanner_Ok_None.
    + intros e. apply scan_leave_no_scanner_close.
    + intros cs ->.
      apply (at_most_in_try _ _ _ _ (λ _, True)).
      * apply Hstart.
      * done.
      * intros e. apply scan_leave_no_scanner_close.
      * intros _ _. unfold scan_complete. quiet. apply scan_finally_no_scanner_close.
Qed.

Lemma stop_failure_truthy msg :
  truthy ("" +:+ "Failed to stop the ANT+ Node: " +:+ msg) = true.
Proof. reflexivity. Qed.

(** X17.  A Ctrl-C while the node runs ends the scan in good order: the
    interrupt is logged, the node is stopped, the driver is closed after it,
    [Scan Complete] is logged last and the result is 0, even if stopping the
    node failed with an [Exception]. *)
Theorem scan_for_clients_interrupted (Node_start : ref → M unit) (W : world) (st : state)
    (identity : USBIdentity) (libusb1_path : option string)
    (usb_dev ant_trancvr : ref) (client_scanner : option ref) (e : exn)
    (st1 st2 st3 : state) :
  setup_transceiver identity libusb1_path W
    (set_trace (λ tr, tr ++ [ELog INFO "Scanning for ANT+ Client Devices"]) st)
  = (Ok (usb_dev, ant_trancvr), st1) →
  setup_scanner ant_trancvr DEFAULT_SCANNER_CALLBACKS W st1 = (Ok client_scanner, st2) →
  Node_start ant_trancvr W st2 = (Raise e, st3) →
  is_KeyboardInterrupt e = true →
  (∀ tr e', node_stop W tr ant_trancvr = Some e' → is_Exception e' = true) →
  let run := scan_for_clients Node_start identity libusb1_path W st in
  run.1 = Ok 0
  ∧ ∃ evs,
      trace run.2
      = trace st3 ++ [ELog WARNING "User Requested Teardown"; ENodeStop ant_trancvr]
          ++ evs ++ [ELog SUCCESS "Scan Complete"]
      ∧ EDriverClose (Patched usb_dev) ∈ evs.
Proof.
  intros Hsetup Hscanner Hstart Hki Hstop. cbv zeta.
  apply setup_scanner_Ok_None in Hscanner as Hnone. subst client_scanner.
  assert (Hrun : scan_for_clients Node_start identity libusb1_path W st
                 = scan_leave (Some usb_dev) (Some ant_trancvr) None e W st3).
  { unfold scan_for_clients. erewrite bind_Ok by reflexivity.
    unfold in_try at 1. rewrite Hsetup.
    unfold in_try at 1. rewrite Hscanner.
    unfold in_try at 1. by rewrite Hstart. }
  rewrite Hrun. unfold scan_leave. rewrite Hki.
  unfold scan_finally, teardown_scanner.
  unfold teardown_transceiver, AntTransceiver.stop, Driver_close, USBDriver.close,
    scan_complete, try_except, bind, external, call, log, emit, ret, raise, raises.
  cbn.
  destruct (node_stop W _ ant_trancvr) as [e'|] eqn:He'; cbn.
  - rewrite (Hstop _ _ He'). cbn.
    split; [reflexivity |]. rewrite stop_failure_truthy. cbn.
    eexists [_; _; _; _]. rewrite <- !app_assoc. cbn.
    split; [reflexivity |]. set_solver.
  - split; [reflexivity |]. cbn.
    eexists [_; _]. rewrite <- !app_assoc. cbn.
    split; [reflexivity |]. set_solver.
Qed.

Lemma scan_for_clients_interrupted_witness :
  let st0 := set_trace (λ tr, tr ++ [ELog INFO "Scanning for ANT+ Client Devices"])
               empty_state in
  let st1 := (setup_transceiver ant_usb_m None failing_world st0).2 in
  let st2 := (setup_scanner 0%nat DEFAULT_SCANNER_CALLBACKS failing_world st1).2 in
  let e := Exn KeyboardInterrupt "" None in
  let run := scan_for_clients interrupted_start ant_usb_m None failing_world empty_state in
  setup_transceiver ant_usb_m None failing_world st0 = (Ok (0%nat, 0%nat), st1)
  ∧ setup_scanner 0%nat DEFAULT_SCANNER_CALLBACKS failing_world st1 = (Ok None, st2)
  ∧ interrupted_start 0%nat failing_world st2 = (Raise e, st2)
  ∧ is_KeyboardInterrupt e = true
  ∧ (∀ tr e', node_stop failing_world tr 0%nat = Some e' → is_Exception e' = true)
  ∧ run.1 = Ok 0
  ∧ ∃ evs,
      trace run.2
      = trace st2 ++ [ELog WARNING "User Requested Teardown"; ENodeStop 0%nat]
          ++ evs ++ [ELog SUCCESS "Scan Complete"]
      ∧ EDriverClose (Patched 0%nat) ∈ evs.
Proof.
  cbv zeta.
  assert (H1 : setup_transceiver ant_usb_m None failing_world
                 (set_trace (λ tr, tr ++ [ELog INFO "Scanning for ANT+ Client Devices"])
                    empty_state)
               = (Ok (0%nat, 0%nat),
                  (setup_transceiver ant_usb_m None failing_world
                     (set_trace (λ tr, tr ++ [ELog INFO "Scanning for ANT+ Client Devices"])
                        empty_state)).2))
    by (vm_compute; reflexivity).
  assert (H2 : setup_scanner 0%nat DEFAULT_SCANNER_CALLBACKS failing_world
                 (setup_transceiver ant_usb_m None failing_world
                    (set_trace (λ tr, tr ++ [ELog INFO "Scanning for ANT+ Client Devices"])
                       empty_state)).2
               = (Ok None,
                  (setup_scanner 0%nat DEFAULT_SCANNER_CALLBACKS failing_world
                     (setup_transceiver ant_usb_m None failing_world
                        (set_trace
                           (λ tr, tr ++ [ELog INFO "Scanning for ANT+ Client Devices"])
                           empty_state)).2).2))
    by (vm_compute; reflexivity).
  assert (H5 : ∀ tr e', node_stop failing_world tr 0%nat = Some e' → is_Exception e' = true).
  { intros tr e' He'. injection He' as <-. reflexivity. }
  split; [exact H1 |]. split; [exact H2 |]. split; [reflexivity |].
  split; [reflexivity |]. split; [exact H5 |].
  exact (scan_for_clients_interrupted interrupted_start failing_world empty_state
           ant_usb_m None 0%nat 0%nat None (Exn KeyboardInterrupt "" None) _ _ _
           H1 H2 eq_refl eq_refl H5).
Defined.

Lemma scan_for_clients_setup_fails_witness :
  setup_transceiver ant_usb_m None empty_bus_world
    (set_trace (λ tr, tr ++ [ELog INFO "Scanning for ANT+ Client Devices"]) empty_state)
  = (Raise (Exn RuntimeError
              ("Couldn't find the `ANT USB-M Transceiver` USB Device: "
               +:+ "(Exception) Unexpected Error: Failed to set a device") None),
     (setup_transceiver ant_usb_m None empty_bus_world
        (set_trace (λ tr, tr ++ [ELog INFO "Scanning for ANT+ Client Devices"])
           empty_state)).2)
  ∧ scan_for_clients interrupted_start ant_usb_m None empty_bus_world empty_state
    = if is_KeyboardInterrupt
           (Exn RuntimeError
              ("Couldn't find the `ANT USB-M Transceiver` USB Device: "
               +:+ "(Exception) Unexpected Error: Failed to set a device") None)
      then
        (Ok 0, set_trace (λ tr, tr ++ [ELog WARNING "User Requested Teardown";
                                        ELog SUCCESS "Scan Complete"])
                 (setup_transceiver ant_usb_m None empty_bus_world
                    (set_trace (λ tr, tr ++ [ELog INFO "Scanning for ANT+ Client Devices"])
                       empty_state)).2)
      else
        (Raise (Exn RuntimeError
                  ("Couldn't find the `ANT USB-M Transceiver` USB Device: "
                   +:+ "(Exception) Unexpected Error: Failed to set a device") None),
         (setup_transceiver ant_usb_m None empty_bus_world
            (set_trace (λ tr, tr ++ [ELog INFO "Scanning for ANT+ Client Devices"])
               empty_state)).2).
Proof.
  assert (H : setup_transceiver ant_usb_m None empty_bus_world
                (set_trace (λ tr, tr ++ [ELog INFO "Scanning for ANT+ Client Devices"])
                   empty_state)
              = (Raise (Exn RuntimeError
                          ("Couldn't find the `ANT USB-M Transceiver` USB Device: "
                           +:+ "(Exception) Unexpected Error: Failed to set a device") None),
                 (setup_transceiver ant_usb_m None empty_bus_world
                    (set_trace (λ tr, tr ++ [ELog INFO "Scanning for ANT+ Client Devices"])
                       empty_state)).2))
    by (vm_compute; reflexivity).
  split; [exact H |].
  exact (scan_for_clients_setup_fails interrupted_start empty_bus_world empty_state
           ant_usb_m None _ _ H).
Defined.

Lemma scan_for_clients_never_closes_scanner_witness :
  (∀ t, at_most is_scanner_close 0 (interrupted_start t))
  ∧ ∃ evs,
      trace (scan_for_clients interrupted_start ant_usb_m None quiet_world empty_state).2
      = trace empty_state ++ evs
      ∧ occurrences is_scanner_close evs = 0%nat.
Proof.
  assert (H : ∀ t, at_most is_scanner_close 0 (interrupted_start t))
    by (intros t; apply at_most_raise).
  split; [exact H |].
  exact (scan_for_clients_never_closes_scanner interrupted_start ant_usb_m None H
           quiet_world empty_state).
Defined.

(** X18.  [set_configuration()] is called outside both [try] blocks of
    [setup_transceiver]: what it raises reaches the caller as it is, not as
    a [RuntimeError], no driver has been built and nothing is torn down. *)
Theorem setup_transceiver_configuration_refused (W : world) (st : state)
    (usb_id : USBIdentity) (libusb1_path : option string) (d : Device) (e : exn) :
  (∀ tr path, usb_get_backend W tr path = None) →
  (∀ tr, usb_find W tr usb_id libusb1_path = Ok (FoundDevice d)) →
  (∀ tr, dev_set_configuration W tr d = Some e) →
  setup_transceiver usb_id libusb1_path W st
  = (Raise e,
     set_trace (λ tr, tr ++ search_events usb_id libusb1_path
                         ++ [ELog SUCCESS "Found the `ANT USB-M Transceiver` USB Device";
                             ELog DEBUG ("Found USB Device..." +:+ LF +:+ str_device W d);
                             EDevSetConfiguration d])
       st).
Proof.
  intros Hbackend Hfind Hconf. unfold setup_transceiver.
  unfold try_except, bind, external, call, log, emit, raise, ret, raises, ask.
  destruct libusb1_path as [path|]; cbn.
  - rewrite Hbackend. cbn. rewrite Hfind. cbn. rewrite Hconf. cbn.
    unfold set_trace. cbn. rewrite <- !app_assoc. reflexivity.
  - rewrite Hfind. cbn. rewrite Hconf. cbn.
    unfold set_trace. cbn. rewrite <- !app_assoc. reflexivity.
Qed.

Lemma setup_transceiver_configuration_refused_witness :
  (∀ tr path, usb_get_backend unplugged_single_world tr path = None)
  ∧ (∀ tr, usb_find unplugged_single_world tr ant_usb_m None = Ok (FoundDevice ant_stick))
  ∧ (∀ tr, dev_set_configuration unplugged_single_world tr ant_stick
           = Some (Exn USBError "No such device" None))
  ∧ setup_transceiver ant_usb_m None unplugged_single_world empty_state
    = (Raise (Exn USBError "No such device" None),
       set_trace (λ tr, tr ++ search_events ant_usb_m None
                           ++ [ELog SUCCESS "Found the `ANT USB-M Transceiver` USB Device";
                               ELog DEBUG ("Found USB Device..." +:+ LF
                                           +:+ str_device unplugged_single_world ant_stick);
                               EDevSetConfiguration ant_stick])
         empty_state).
Proof.
  split; [reflexivity |]. split; [reflexivity |]. split; [reflexivity |].
  exact (setup_transceiver_configuration_refused unplugged_single_world empty_state
           ant_usb_m None ant_stick (Exn USBError "No such device" None)
           (λ _ _, eq_refl) (λ _, eq_refl) (λ _, eq_refl)).
Defined.

(** X19.  The [transceiver] property of a node just built is the pump the
    node was built on.  Building the node starts one thread, the node's
    worker, and touches neither the drivers nor the pumps. *)
Theorem node_init_transceiver (W : world) (st : state) (pump : ref) :
  let run := (node <- AntTransceiver.__init__ pump ;; AntTransceiver.transceiver node) W st in
  run.1 = Ok pump
  ∧ trace run.2
    = trace st ++ [EThreadStart {| target := Node_worker (fresh (dom (nodes st)));
                                   name := "openant.easy" |}]
  ∧ drivers run.2 = drivers st
  ∧ pumps run.2 = pumps st.
Proof.
  cbv zeta. destruct (node_init_run pump W st) as (this & Hrun & Hant & _).
  erewrite bind_Ok by exact Hrun.
  unfold AntTransceiver.transceiver, AntTransceiver.get, bind, ret. cbn.
  rewrite lookup_insert_eq. cbn. by rewrite Hant.
Qed.

(** X20.  The [except] clause of the second [try] of [setup_transceiver],
    entered with the driver and the node both built: it stops the node,
    then closes the driver, and raises the [RuntimeError] of the failed
    setup with the original exception as its cause, also when stopping the
    node failed. *)
Theorem setup_transceiver_failed_tears_down (W : world) (st : state)
    (usb_driver transceiver : ref) (e : exn) :
  (∀ tr e', node_stop W tr transceiver = Some e' → is_Exception e' = true) →
  let run := setup_transceiver_failed (A:=ref * ref) (Some (Patched usb_driver))
               (Some transceiver) e W st in
  run.1 = Raise (Exn RuntimeError "Failed to setup the ANT Transceiver" (Some e))
  ∧ ∃ evs,
      trace run.2
      = trace st
        ++ [ELog DEBUG "Some Error encountered while setting up the Transceiver; will teardown";
            ENodeStop transceiver] ++ evs
      ∧ EDriverClose (Patched usb_driver) ∈ evs.
Proof.
  intros Hstop. cbv zeta. unfold setup_transceiver_failed.
  unfold teardown_transceiver, AntTransceiver.stop, Driver_close, USBDriver.close,
    try_except, bind, external, call, log, emit, ret, raise, raises.
  cbn.
  destruct (node_stop W _ transceiver) as [e'|] eqn:He'; cbn.
  - rewrite (Hstop _ _ He'). cbn.
    rewrite stop_failure_truthy. cbn.
    split; [reflexivity |].
    eexists [_; _; _; _]. rewrite <- !app_assoc. cbn.
    split; [reflexivity |]. set_solver.
  - split; [reflexivity |].
    eexists [_; _]. rewrite <- !app_assoc. cbn.
    split; [reflexivity |]. set_solver.
Qed.

Lemma setup_transceiver_failed_tears_down_witness :
  (∀ tr e', node_stop failing_world tr 0%nat = Some e' → is_Exception e' = true)
  ∧ (setup_transceiver_failed (A:=ref * ref) (Some (Patched 0%nat)) (Some 0%nat)
       (Exn USBError "timeout" None) failing_world (opened_driver ant_stick)).1
    = Raise (Exn RuntimeError "Failed to setup the ANT Transceiver"
               (Some (Exn USBError "timeout" None)))
  ∧ ∃ evs,
      trace (setup_transceiver_failed (A:=ref * ref) (Some (Patched 0%nat)) (Some 0%nat)
               (Exn USBError "timeout" None) failing_world (opened_driver ant_stick)).2
      = trace (opened_driver ant_stick)
        ++ [ELog DEBUG "Some Error encountered while setting up the Transceiver; will teardown";
            ENodeStop 0%nat] ++ evs
      ∧ EDriverClose (Patched 0%nat) ∈ evs.
Proof.
  assert (H : ∀ tr e', node_stop failing_world tr 0%nat = Some e' → is_Exception e' = true).
  { intros tr e' He'. injection He' as <-. reflexivity. }
  split; [exact H |].
  exact (setup_transceiver_failed_tears_down failing_world (opened_driver ant_stick)
           0%nat 0%nat (Exn USBError "timeout" None) H).
Defined.

(** ** The heart-rate callback *)

Lemma log_pages_cons datum last now data rest :
  log_pages datum last ((now, data) :: rest)
  = if (last =? beat_count data)%Z then log_pages datum last rest
    else HeartRateSpec.from_data data (stamp datum now)
         :: log_pages datum (beat_count data) rest.
Proof. cbn. unfold _log_data. by destruct (last =? beat_count data)%Z. Qed.

(** The first record written, if any, is not of beat [last]; and no two
    records in a row are of the same beat. *)
Lemma log_pages_adjacent datum pages :
  ∀ last,
    (∀ r, head (log_pages datum last pages) = Some r → beat_of r ≠ last)
    ∧ (∀ i r1 r2, log_pages datum last pages !! i = Some r1 →
                  log_pages datum last pages !! S i = Some r2 →
                  beat_of r1 ≠ beat_of r2).
Proof.
  induction pages as [|[now data] rest IH]; intros last.
  { split; [by intros r [=] | by intros i r1 r2 [=]]. }
  rewrite log_pages_cons.
  destruct (last =? beat_count data)%Z eqn:Hlast; [apply IH |].
  apply Z.eqb_neq in Hlast.
  destruct (IH (beat_count data)) as [IHhead IHadj]. split.
  - intros r [= <-]. unfold beat_of. cbn. congruence.
  - intros [|i] r1 r2 H1 H2.
    + injection H1 as <-. cbn in H2.
      assert (Hhead : head (log_pages datum (beat_count data) rest) = Some r2)
        by (by destruct (log_pages datum (beat_count data) rest)).
      apply IHhead in Hhead. unfold beat_of in *. cbn. congruence.
    + cbn in H1, H2. by apply (IHadj i).
Qed.

(** X21.  No two records written in a row carry the same beat count. *)
Theorem heart_rate_output_no_repeats (datum : Z) (pages : list (Z * HeartRateData))
    (i : nat) (r1 r2 : HeartRateSpec.t) :
  heart_rate_output datum pages !! i = Some r1 →
  heart_rate_output datum pages !! S i = Some r2 →
  beat_of r1 ≠ beat_of r2.
Proof. apply log_pages_adjacent. Qed.

Lemma heart_rate_output_no_repeats_witness :
  heart_rate_output 400 sample_pages !! 0%nat
  = Some (HeartRateSpec.from_data beat7 (stamp 400 1000))
  ∧ heart_rate_output 400 sample_pages !! 1%nat
    = Some (HeartRateSpec.from_data beat8 (stamp 400 1500))
  ∧ beat_of (HeartRateSpec.from_data beat7 (stamp 400 1000))
    ≠ beat_of (HeartRateSpec.from_data beat8 (stamp 400 1500)).
Proof.
  split; [reflexivity |]. split; [reflexivity |].
  exact (heart_rate_output_no_repeats 400 sample_pages 0 _ _ eq_refl eq_refl).
Defined.

(** X22.  When the beat count changes from every page to the next, and the
    first page is not of beat [-1], every page is written, in order, with
    the time elapsed since [datum] at its delivery. *)
Theorem heart_rate_output_all_written (datum : Z) (pages : list (Z * HeartRateData)) :
  beats_change (-1) pages = true →
  heart_rate_output datum pages
  = (λ page, HeartRateSpec.from_data page.2 (stamp datum page.1)) <$> pages.
Proof.
  unfold heart_rate_output. generalize (-1).
  induction pages as [|[now data] rest IH]; intros last Hchange; [done |].
  cbn [beats_change] in Hchange. apply andb_prop in Hchange as [Hlast Hrest].
  rewrite log_pages_cons. apply negb_true_iff in Hlast. rewrite Hlast.
  cbn. f_equal. by apply IH.
Qed.

Lemma heart_rate_output_all_written_witness :
  beats_change (-1) [(1000, beat7); (1500, beat8)] = true
  ∧ heart_rate_output 400 [(1000, beat7); (1500, beat8)]
    = (λ page, HeartRateSpec.from_data page.2 (stamp 400 page.1))
        <$> [(1000, beat7); (1500, beat8)].
Proof.
  split; [reflexivity |].
  exact (heart_rate_output_all_written 400 [(1000, beat7); (1500, beat8)] eq_refl).
Defined.

(** X23.  Every record written stems from one of the pages delivered: it
    is of kind [heart_rate], carries that page's four readings, and its
    metadata give the unit [ns], the callback's [datum] and the time of
    the delivery less [datum]. *)
Theorem heart_rate_output_provenance (datum : Z) (pages : list (Z * HeartRateData))
    (record : HeartRateSpec.t) :
  record ∈ heart_rate_output datum pages →
  ∃ now data,
    (now, data) ∈ pages
    ∧ record
      = {| HeartRateSpec.kind := "heart_rate";
           HeartRateSpec.metadata :=
             {| Metadata.time := {| Metadata.unit := "ns"; Metadata.datum := datum;
                                    Metadata.diff := now - datum |} |};
           HeartRateSpec.data :=
             {| HeartRateSpec.bpm := heart_rate data;
                HeartRateSpec.beat := beat_count data;
                HeartRateSpec.time :=
                  {| HeartRateSpec.cur := beat_time data;
                     HeartRateSpec.prev := previous_heart_beat_time data |} |} |}.
Proof.
  unfold heart_rate_output. generalize (-1).
  induction pages as [|[now data] rest IH]; intros last Hin.
  { by apply elem_of_nil in Hin. }
  rewrite log_pages_cons in Hin.
  destruct (last =? beat_count data)%Z.
  - destruct (IH _ Hin) as (now' & data' & Hpage & ->).
    exists now', data'. split; [apply elem_of_cons; by right | done].
  - apply elem_of_cons in Hin as [-> | Hin].
    + exists now, data. split; [apply elem_of_cons; by left | done].
    + destruct (IH _ Hin) as (now' & data' & Hpage & ->).
      exists now', data'. split; [apply elem_of_cons; by right | done].
Qed.

Lemma heart_rate_output_provenance_witness :
  HeartRateSpec.from_data beat8 (stamp 400 1500) ∈ heart_rate_output 400 sample_pages
  ∧ ∃ now data,
      (now, data) ∈ sample_pages
      ∧ HeartRateSpec.from_data beat8 (stamp 400 1500)
        = {| HeartRateSpec.kind := "heart_rate";
             HeartRateSpec.metadata :=
               {| Metadata.time := {| Metadata.unit := "ns"; Metadata.datum := 400;
                                      Metadata.diff := now - 400 |} |};
             HeartRateSpec.data :=
               {| HeartRateSpec.bpm := heart_rate data;
                  HeartRateSpec.beat := beat_count data;
                  HeartRateSpec.time :=
                    {| HeartRateSpec.cur := beat_time data;
                       HeartRateSpec.prev := previous_heart_beat_time data |} |} |}.
Proof.
  assert (H : HeartRateSpec.from_data beat8 (stamp 400 1500)
              ∈ heart_rate_output 400 sample_pages).
  { change (heart_rate_output 400 sample_pages)
      with [HeartRateSpec.from_data beat7 (stamp 400 1000);
            HeartRateSpec.from_data beat8 (stamp 400 1500)].
    apply elem_of_cons; right. apply elem_of_cons; by left. }
  split; [exact H |].
  exact (heart_rate_output_provenance 400 sample_pages _ H).
Defined.

(** ** The command line *)

Lemma contains_split1 c s :
  contains c s = true → ∃ key value, split1 c s = [key; value].
Proof.
  induction s as [|a s IH]; cbn; [discriminate |].
  destruct (Ascii.eqb a c); [eauto |].
  intros Hc. destruct (IH Hc) as (key & value & ->). eauto.
Qed.

Lemma split1_join c key value :
  contains c key = false → split1 c (key +:+ String c value) = [key; value].
Proof.
  induction key as [|a key IH].
  - intros _. change (split1 c (String c value) = [""; value]).
    cbn. by rewrite Ascii.eqb_refl.
  - change (contains c (String a key) = false →
            split1 c (String a (key +:+ String c value)) = [String a key; value]).
    cbn. destruct (Ascii.eqb a c); [discriminate |]. intros Hc. by rewrite (IH Hc).
Qed.

Lemma contains_join c key value : contains c (key +:+ String c value) = true.
Proof.
  induction key as [|a key IH].
  - change (contains c (String c value) = true). cbn. by rewrite Ascii.eqb_refl.
  - change (contains c (String a (key +:+ String c value)) = true).
    cbn. by destruct (Ascii.eqb a c).
Qed.

Lemma startswith_dashes arg :
  startswith "--" arg = true → ∃ rest, arg = "--" +:+ rest.
Proof.
  destruct arg as [|a [|b rest]]; [discriminate | |].
  - change (Ascii.eqb dash a && false = true → ∃ rest, String a "" = "--" +:+ rest).
    by rewrite andb_false_r.
  - change (Ascii.eqb dash a && (Ascii.eqb dash b && true) = true
            → ∃ rest0, String a (String b rest) = String dash (String dash rest0)).
    rewrite andb_true_r. intros [Ha Hb]%andb_true_iff.
    apply Ascii.eqb_eq in Ha, Hb. subst. by exists rest.
Qed.

Lemma option_split arg :
  startswith "--" arg = true → contains equals_sign arg = true →
  ∃ key value, split1 equals_sign (drop2 arg) = [key; value].
Proof.
  intros [rest ->]%startswith_dashes Hc.
  change (drop2 ("--" +:+ rest)) with rest.
  change (contains equals_sign rest = true) in Hc. by apply contains_split1.
Qed.

(** X24.  The option parser never fails: whatever the arguments, the
    unpacking of [key, value] finds its two parts. *)
Theorem parse_argv_total (argv : list string) (env : gmap string string) :
  is_Some (parse_argv argv env).
Proof.
  unfold parse_argv. generalize 0%nat.
  generalize {| args := []; kwargs := initial_kwargs env; traced := [] |}.
  induction argv as [|arg rest IH]; intros p idx;
    cbn -[String.eqb startswith contains split1 drop2]; [done |].
  destruct (String.eqb arg "--"); [done |].
  destruct (startswith "--" arg) eqn:Hopt; [| apply IH].
  destruct (contains equals_sign arg) eqn:Heq; [| apply IH].
  destruct (option_split arg Hopt Heq) as (key & value & ->). apply IH.
Qed.

Lemma terminator_is_option arg : is_terminator arg = true → is_option arg = true.
Proof. unfold is_terminator. by intros ->%String.eqb_eq. Qed.

(** The loop over a list cut in two, when the first part holds no
    terminator: the loop over the first part, then the loop over the second
    from where the first one stopped. *)
Lemma parse_loop_app idx pre post p :
  Forall (λ arg, is_terminator arg = false) pre →
  parse_loop idx (pre ++ post) p
  = match parse_loop idx pre p with
    | Some q => parse_loop (idx + length pre) post q
    | None => None
    end.
Proof.
  intros Hpre. revert idx p.
  induction Hpre as [|arg pre Harg _ IH]; intros idx p.
  - cbn. by rewrite Nat.add_0_r.
  - unfold is_terminator in Harg.
    cbn -[String.eqb startswith contains split1 drop2]. rewrite Harg.
    replace (idx + S (length pre))%nat with (S idx + length pre)%nat by lia.
    destruct (startswith "--" arg); [| apply IH].
    destruct (contains equals_sign arg); [| apply IH].
    destruct (split1 equals_sign (drop2 arg)) as [|key [|value [|]]];
      first [done | apply IH].
Qed.

(** X25.  Everything after a bare [--] is positional, taken as it stands,
    options included; what came before it is parsed as if the list ended
    there. *)
Theorem parse_argv_terminator (pre rest : list string) (env : gmap string string)
    (p : parser) :
  Forall (λ arg, is_terminator arg = false) pre →
  parse_argv pre env = Some p →
  parse_argv (pre ++ "--" :: rest) env
  = Some {| args := args p ++ rest;
            kwargs := kwargs p;
            traced := traced p
                      ++ ["Found end of arguments at index " +:+ pretty (length pre)] |}.
Proof.
  intros Hpre Hp. unfold parse_argv in *.
  rewrite parse_loop_app by done. rewrite Hp. reflexivity.
Qed.

Lemma parse_argv_terminator_witness :
  let pre := ["read"; "--log=DEBUG"] in
  let p := {| args := ["read"];
              kwargs := <["log" := VStr "DEBUG"]> (initial_kwargs ∅);
              traced := ["Found positional argument: read";
                         "Found keyword argument: --log=DEBUG"] |} in
  Forall (λ arg, is_terminator arg = false) pre
  ∧ parse_argv pre ∅ = Some p
  ∧ parse_argv (pre ++ "--" :: ["--not-an-option"; "-"]) ∅
    = Some {| args := args p ++ ["--not-an-option"; "-"];
              kwargs := kwargs p;
              traced := traced p
                        ++ ["Found end of arguments at index " +:+ pretty (length pre)] |}.
Proof.
  cbv zeta.
  assert (H1 : Forall (λ arg, is_terminator arg = false) ["read"; "--log=DEBUG"])
    by (repeat constructor).
  assert (H2 : parse_argv ["read"; "--log=DEBUG"] ∅
               = Some {| args := ["read"];
                         kwargs := <["log" := VStr "DEBUG"]> (initial_kwargs ∅);
                         traced := ["Found positional argument: read";
                                    "Found keyword argument: --log=DEBUG"] |})
    by reflexivity.
  split; [exact H1 |]. split; [exact H2 |].
  exact (parse_argv_terminator ["read"; "--log=DEBUG"] ["--not-an-option"; "-"] ∅ _ H1 H2).
Defined.

(** X26.  Arguments that do not start with [--] are the positional
    arguments, in order, and leave the keyword arguments at their
    defaults. *)
Theorem parse_argv_positional (argv : list string) (env : gmap string string) :
  Forall (λ arg, is_option arg = false) argv →
  parse_argv argv env
  = Some {| args := argv;
            kwargs := initial_kwargs env;
            traced := (λ arg, "Found positional argument: " +:+ arg) <$> argv |}.
Proof.
  intros Hargv. unfold parse_argv.
  enough (H : ∀ idx p,
    parse_loop idx argv p
    = Some {| args := args p ++ argv; kwargs := kwargs p;
              traced := traced p
                        ++ ((λ arg, "Found positional argument: " +:+ arg) <$> argv) |})
    by apply H.
  induction Hargv as [|arg argv Harg _ IH]; intros idx p.
  - cbn. rewrite !app_nil_r. by destruct p.
  - cbn -[String.eqb startswith contains split1 drop2].
    destruct (String.eqb arg "--") eqn:Hterm.
    { apply terminator_is_option in Hterm. congruence. }
    unfold is_option in Harg. rewrite Harg, IH. cbn.
    by rewrite <- !app_assoc.
Qed.

Lemma parse_argv_positional_witness :
  Forall (λ arg, is_option arg = false) ["scan"; "-v"]
  ∧ parse_argv ["scan"; "-v"] ∅
    = Some {| args := ["scan"; "-v"];
              kwargs := initial_kwargs ∅;
              traced := (λ arg, "Found positional argument: " +:+ arg) <$> ["scan"; "-v"] |}.
Proof.
  assert (H1 : Forall (λ arg, is_option arg = false) ["scan"; "-v"])
    by (repeat constructor).
  split; [exact H1 |].
  exact (parse_argv_positional ["scan"; "-v"] ∅ H1).
Defined.

Lemma option_not_terminator key value :
  String.eqb ("--" +:+ key +:+ String equals_sign value) "--" = false.
Proof.
  apply String.eqb_neq. destruct key; discriminate.
Qed.

(** X27.  An argument [--key=value] sets [key] to the string after the
    first [=], which may itself hold [=] signs, overriding any earlier
    value; an argument [--key] without [=] sets [key] to [True]. *)
Theorem parse_argv_keyword (pre : list string) (key value : string)
    (env : gmap string string) (p : parser) :
  Forall (λ arg, is_terminator arg = false) pre →
  contains equals_sign key = false →
  parse_argv pre env = Some p →
  (∃ q, parse_argv (pre ++ ["--" +:+ key +:+ String equals_sign value]) env = Some q
        ∧ args q = args p
        ∧ kwargs q = <[key := VStr value]> (kwargs p))
  ∧ (key ≠ "" →
     ∃ q, parse_argv (pre ++ ["--" +:+ key]) env = Some q
          ∧ args q = args p
          ∧ kwargs q = <[key := VTrue]> (kwargs p)).
Proof.
  intros Hpre Hkey Hp. unfold parse_argv in *. split.
  - rewrite parse_loop_app by done. rewrite Hp.
    cbn -[String.eqb startswith contains split1 drop2].
    rewrite option_not_terminator.
    change (startswith "--" ("--" +:+ key +:+ String equals_sign value)) with true.
    change (contains equals_sign ("--" +:+ key +:+ String equals_sign value))
      with (contains equals_sign (key +:+ String equals_sign value)).
    rewrite contains_join.
    change (drop2 ("--" +:+ key +:+ String equals_sign value))
      with (key +:+ String equals_sign value).
    rewrite split1_join by done. eauto.
  - intros Hne. rewrite parse_loop_app by done. rewrite Hp.
    cbn -[String.eqb startswith contains split1 drop2].
    assert (String.eqb ("--" +:+ key) "--" = false) as ->.
    { apply String.eqb_neq. destruct key; [done | discriminate]. }
    change (startswith "--" ("--" +:+ key)) with true.
    change (contains equals_sign ("--" +:+ key)) with (contains equals_sign key).
    rewrite Hkey. eauto.
Qed.

Lemma parse_argv_keyword_witness :
  let p := {| args := ["read"]; kwargs := initial_kwargs ∅;
              traced := ["Found positional argument: read"] |} in
  Forall (λ arg, is_terminator arg = false) ["read"]
  ∧ contains equals_sign "libusb1" = false
  ∧ parse_argv ["read"] ∅ = Some p
  ∧ (∃ q, parse_argv (["read"] ++ ["--" +:+ "libusb1" +:+ String equals_sign "/opt/lib=usb.so"])
            ∅ = Some q
          ∧ args q = args p
          ∧ kwargs q = <["libusb1" := VStr "/opt/lib=usb.so"]> (kwargs p))
  ∧ ("libusb1" ≠ "" →
     ∃ q, parse_argv (["read"] ++ ["--" +:+ "libusb1"]) ∅ = Some q
          ∧ args q = args p
          ∧ kwargs q = <["libusb1" := VTrue]> (kwargs p)).
Proof.
  cbv zeta.
  assert (H1 : Forall (λ arg, is_terminator arg = false) ["read"]) by (repeat constructor).
  split; [exact H1 |]. split; [reflexivity |]. split; [reflexivity |].
  exact (parse_argv_keyword ["read"] "libusb1" "/opt/lib=usb.so" ∅ _ H1 eq_refl eq_refl).
Defined.

(** X28.  Whatever the arguments, the three keys the program reads,
    [log], [libusb1] and [transceiver], are present in the keyword
    arguments: options only ever add or replace keys. *)
Theorem parse_argv_keeps_required_keys (argv : list string) (env : gmap string string)
    (p : parser) :
  parse_argv argv env = Some p →
  is_Some (kwargs p !! "log") ∧ is_Some (kwargs p !! "libusb1")
  ∧ is_Some (kwargs p !! "transceiver").
Proof.
  unfold parse_argv.
  enough (H : ∀ key idx q, is_Some (kwargs q !! key) →
                parse_loop idx argv q = Some p → is_Some (kwargs p !! key)).
  { intros Hp. repeat split; (eapply H; [| exact Hp]); unfold initial_kwargs; cbn;
      rewrite !lookup_insert_is_Some'; auto. }
  intros key. induction argv as [|arg rest IH]; intros idx q Hq.
  - cbn. by intros [= <-].
  - cbn -[String.eqb startswith contains split1 drop2].
    destruct (String.eqb arg "--"); [by intros [= <-] |].
    destruct (startswith "--" arg); [| by apply IH].
    assert (Hins : ∀ k v, is_Some (<[k := v]> (kwargs q) !! key)).
    { intros k v. destruct (decide (k = key)) as [->|];
        [rewrite lookup_insert_eq | rewrite lookup_insert_ne]; eauto. }
    destruct (contains equals_sign arg); [| apply IH, Hins].
    destruct (split1 equals_sign (drop2 arg)) as [|k [|v [|]]];
      first [done | apply IH, Hins].
Qed.

Lemma parse_argv_keeps_required_keys_witness :
  let p := {| args := []; kwargs := <["log" := VTrue]> (initial_kwargs ∅);
              traced := ["Found keyword argument: --log"] |} in
  parse_argv ["--log"] ∅ = Some p
  ∧ is_Some (kwargs p !! "log") ∧ is_Some (kwargs p !! "libusb1")
  ∧ is_Some (kwargs p !! "transceiver").
Proof.
  cbv zeta. split; [reflexivity |].
  exact (parse_argv_keeps_required_keys ["--log"] ∅ _ eq_refl).
Defined.
